(** * flatlogic/cli: the [generate] command

    A shallow embedding of [src/commands/generate.ts]: the preset store, the
    option resolver (flags or prompts) and the project materializer, with
    the filesystem, the terminal, the remote service and the archive
    extractor as an explicit world that every step threads. *)

From Stdlib Require Import Ascii String List NArith Bool Lia.
From stdpp Require Import base option list strings gmap fin_maps.


(** ** JavaScript values

    The fragment of JavaScript values the command manipulates: the option
    bag, the prompt answers, the presets and the [Application] are all plain
    objects over strings, booleans and arrays.  An object is an association
    list in property-creation order, because [JSON.stringify] enumerates keys
    in that order.  Numbers do not occur anywhere in the program. *)

Unset Elimination Schemes.
Inductive jsval : Type :=
| JUndefined
| JNull
| JBool (b : bool)
| JString (s : string)
| JArray (xs : list jsval)
| JObject (ms : list (string * jsval)).
Set Elimination Schemes.

Abbreviation obj := (list (string * jsval)).

(** Induction that reaches the values nested in arrays and objects. *)
Section jsval_induction.
Variable P : jsval → Prop.
Hypothesis Hundef : P JUndefined.
Hypothesis Hnull : P JNull.
Hypothesis Hbool : ∀ b, P (JBool b).
Hypothesis Hstring : ∀ s, P (JString s).
Hypothesis Harray : ∀ xs, Forall P xs → P (JArray xs).
Hypothesis Hobject : ∀ ms, Forall (λ m, P m.2) ms → P (JObject ms).

Fixpoint jsval_nested_ind (v : jsval) : P v :=
  match v with
  | JUndefined => Hundef
  | JNull => Hnull
  | JBool b => Hbool b
  | JString s => Hstring s
  | JArray xs =>
      Harray xs
        ((fix go (l : list jsval) : Forall P l :=
            match l with
            | [] => Forall_nil_2 P
            | x :: l' => Forall_cons_2 P x l' (jsval_nested_ind x) (go l')
            end) xs)
  | JObject ms =>
      Hobject ms
        ((fix go (l : obj) : Forall (λ m, P m.2) l :=
            match l with
            | [] => Forall_nil_2 _
            | m :: l' =>
                Forall_cons_2 (λ m, P m.2) m l' (jsval_nested_ind m.2) (go l')
            end) ms)
  end.
End jsval_induction.

(** [o[k]]: the first binding of [k], [undefined] when there is none. *)
Fixpoint obj_get (o : obj) (k : string) : jsval :=
  match o with
  | [] => JUndefined
  | (k', v) :: o' => if String.eqb k' k then v else obj_get o' k
  end.

(** [o[k] = v]: an existing property keeps its place, a new one goes last. *)
Fixpoint obj_set (o : obj) (k : string) (v : jsval) : obj :=
  match o with
  | [] => [(k, v)]
  | (k', v') :: o' =>
      if String.eqb k' k then (k', v) :: o' else (k', v') :: obj_set o' k v
  end.

(** [{...a, ...b}]: the properties of [b] are copied onto [a] in order. *)
Definition obj_spread (a b : obj) : obj :=
  fold_left (λ acc m, obj_set acc m.1 m.2) b a.

(** [Object.keys(o)]. *)
Definition Object_keys (o : obj) : list string := map fst o.

(** JavaScript's ToBoolean on the fragment. *)
Definition truthy (v : jsval) : bool :=
  match v with
  | JUndefined | JNull => false
  | JBool b => b
  | JString s => negb (String.eqb s "")
  | JArray _ | JObject _ => true
  end.

(** ** The preset store (generate.ts, lines 18-124)

    The literal is transcribed property by property, in source order. *)

Definition users_fields : list jsval :=
  [
    JObject
      [("name", JString "firstName");
       ("type", JString "string");
       ("show_in_form", JBool true);
       ("show_in_table", JBool true);
       ("editable", JBool false);
       ("title", JString "First Name")];
    JObject
      [("name", JString "lastName");
       ("type", JString "string");
       ("show_in_form", JBool true);
       ("show_in_table", JBool true);
       ("editable", JBool false);
       ("title", JString "Last Name")];
    JObject
      [("name", JString "phoneNumber");
       ("type", JString "string");
       ("show_in_form", JBool true);
       ("show_in_table", JBool true);
       ("editable", JBool false);
       ("title", JString "Phone Number")];
    JObject
      [("name", JString "email");
       ("type", JString "string");
       ("show_in_form", JBool true);
       ("show_in_table", JBool true);
       ("editable", JBool false);
       ("title", JString "E-mail")];
    JObject
      [("name", JString "role");
       ("type", JString "enum");
       ("options", JArray [JString "admin"; JString "user"]);
       ("widget", JString "radio");
       ("show_in_form", JBool true);
       ("show_in_table", JBool true);
       ("editable", JBool false);
       ("title", JString "Role")];
    JObject
      [("name", JString "disabled");
       ("type", JString "boolean");
       ("show_in_form", JBool true);
       ("show_in_table", JBool true);
       ("editable", JBool false);
       ("title", JString "Disabled")];
    JObject
      [("name", JString "avatar");
       ("type", JString "images");
       ("show_in_form", JBool true);
       ("show_in_table", JBool true);
       ("editable", JBool false);
       ("title", JString "Avatar")];
    JObject
      [("name", JString "password");
       ("type", JString "string");
       ("editable", JBool false);
       ("title", JString "Password");
       ("show_in_form", JBool false);
       ("show_in_table", JBool false)];
    JObject
      [("name", JString "emailVerified");
       ("type", JString "boolean");
       ("editable", JBool false);
       ("title", JString "emailVerified");
       ("show_in_form", JBool false);
       ("show_in_table", JBool false)];
    JObject
      [("name", JString "emailVerificationToken");
       ("type", JString "string");
       ("editable", JBool false);
       ("title", JString "emailVerificationToken");
       ("show_in_form", JBool false);
       ("show_in_table", JBool false)];
    JObject
      [("name", JString "emailVerificationTokenExpiresAt");
       ("type", JString "datetime");
       ("editable", JBool false);
       ("title", JString "emailVerificationTokenExpiresAt");
       ("show_in_form", JBool false);
       ("show_in_table", JBool false)];
    JObject
      [("name", JString "passwordResetToken");
       ("type", JString "string");
       ("editable", JBool false);
       ("title", JString "passwordResetToken");
       ("show_in_form", JBool false);
       ("show_in_table", JBool false)];
    JObject
      [("name", JString "passwordResetTokenExpiresAt");
       ("type", JString "datetime");
       ("editable", JBool false);
       ("title", JString "passwordResetTokenExpiresAt");
       ("show_in_form", JBool false);
       ("show_in_table", JBool false)];
    JObject
      [("name", JString "provider");
       ("type", JString "string");
       ("editable", JBool false);
       ("title", JString "provider");
       ("show_in_form", JBool false);
       ("show_in_table", JBool false)]
  ].

Definition users_entity : jsval :=
  JObject [("name", JString "users"); ("show_field", JString "firstName");
           ("fields", JArray users_fields)].

Definition PRESETS : obj := [("blank", JArray [users_entity])].

(** Readers for the [Entity] and [Field] interfaces (lines 126-166). *)
Definition elements (v : jsval) : list jsval :=
  match v with JArray xs => xs | _ => [] end.

Definition prop (v : jsval) (k : string) : jsval :=
  match v with JObject ms => obj_get ms k | _ => JUndefined end.

Definition entity_name (e : jsval) : jsval := prop e "name".
Definition entity_fields (e : jsval) : list jsval := elements (prop e "fields").
Definition field_name (f : jsval) : jsval := prop f "name".

(** The entities a preset name is bound to ([[]] for an unknown name). *)
Definition preset_entities (p : string) : list jsval :=
  elements (obj_get PRESETS p).

(** JavaScript's ToPropertyKey on the fragment: the string a value denotes
    when it is used as a computed property name, as in [PRESETS[x]]. *)
Fixpoint to_key (v : jsval) : string :=
  match v with
  | JUndefined => "undefined"
  | JNull => "null"
  | JBool b => if b then "true" else "false"
  | JString s => s
  | JArray xs =>
      String.concat ","
        (map (λ x, match x with JUndefined | JNull => "" | _ => to_key x end) xs)
  | JObject _ => "[object Object]"
  end.

(** ** The world the command runs in

    The filesystem is a finite map from path to node; [stat] follows symbolic
    links, so a node is what [stat] reports: a regular file with its content,
    a directory, or something else (socket, FIFO, device). *)

Inductive node : Type :=
| File (content : string)
| Dir
| Special.

(** [chalk.red(text)]. *)
Inductive styled : Type :=
| Red (text : string).

(** What the command does to the outside, in the order it does it. *)
Inductive event : Type :=
| Stderr (line : styled)
| Prompt (questions : list string)
| Mkdir (path : string)
| Post (url : string) (json : jsval)
| WriteStream (path : string) (data : string)
| Extract (zip dir : string)
| Rm (path : string)
| WriteFile (path : string) (data : string).

(** Rejections of the promises the action awaits; none is caught. *)
Inductive failure : Type :=
| FsError (code syscall path : string)
| HTTPError (status : nat)
| RequestError
| ExtractError
| TypeError.

(** What the generation endpoint answers to one request: the whole archive,
    a non-success status (no body is piped), or a connection that breaks
    after [received] bytes. *)
Inductive response : Type :=
| Archive (body : string)
| Status (code : nat)
| Broken (received : string).

Record world : Type := World {
  fs : gmap string node;
  log : list event;
}.

(** The part of the machine the command reads but never changes, and the
    libraries whose code is not in this repository: [path.join] and the parent
    directory of a path, [process.cwd()], [os.tmpdir()], the remote service,
    [extract-zip] (archive bytes, target directory, filesystem before;
    [None] when it rejects) and the person at the terminal (for each question
    name, how often the cursor is moved down before Enter). *)
Record host : Type := Host {
  path_join : string → string → string;
  path_dirname : string → string;
  cwd : string;
  tmpdir : string;
  server : jsval → response;
  extract_zip : string → string → gmap string node → option (gmap string node);
  user : string → nat;
}.

(** A step ends with a value, with [process.exit(code)], or with a rejected
    promise. *)
Inductive outcome (A : Type) : Type :=
| Ret (a : A)
| Exit (code : nat)
| Reject (f : failure).
Arguments Ret {A} a.
Arguments Exit {A} code.
Arguments Reject {A} f.

Definition M (A : Type) : Type := world → outcome A * world.

Definition ret {A} (a : A) : M A := λ w, (Ret a, w).

Definition bind {A B} (m : M A) (k : A → M B) : M B :=
  λ w, match m w with
       | (Ret a, w') => k a w'
       | (Exit c, w') => (Exit c, w')
       | (Reject f, w') => (Reject f, w')
       end.

Notation "'let*' x ':=' m 'in' k" := (bind m (λ x, k))
  (at level 10, x name, m at level 100, k at level 200, only parsing).
Notation "m ';;' k" := (bind m (λ _, k))
  (at level 100, k at level 200, only parsing).

Definition emit (e : event) : M unit :=
  λ w, (Ret tt, World (fs w) (log w ++ [e])).

Definition get_fs : M (gmap string node) := λ w, (Ret (fs w), w).

Definition put_fs (f : gmap string node) : M unit :=
  λ w, (Ret tt, World f (log w)).

Definition reject {A} (f : failure) : M A := λ w, (Reject f, w).

(** [process.exit(code)]: nothing after it runs. *)
Definition process_exit {A} (code : nat) : M A := λ w, (Exit code, w).

(** [console.error(chalk.red(text))]. *)
Definition console_error (line : styled) : M unit := emit (Stderr line).

(** The exit status of the process.  Nothing awaits or catches the promise of
    the action, and on the Node versions that have [stream/promises] (15 and
    later) an unhandled rejection ends the process with status 1. *)
Definition exit_status {A} (o : outcome A) : nat :=
  match o with
  | Ret _ => 0
  | Exit c => c
  | Reject _ => 1
  end.

(** ** [JSON.stringify] and [JSON.parse]

    Both are built into the language; they are modelled after ECMA-262
    (SerializeJSONProperty, QuoteJSONString, and the JSON grammar) on the
    fragment above.  A string stands for the UTF-8 bytes of well-formed
    text, so the only characters that need an escape are the quote, the
    backslash and the control characters. *)

Definition dquote : ascii := "034"%char.
Definition backslash : ascii := "092"%char.
Definition LF : string := String "010"%char "".

Definition hex_digit (n : N) : ascii :=
  if (n <? 10)%N then ascii_of_N (48 + n) else ascii_of_N (87 + n).

Definition quote_char (c : ascii) : string :=
  let n := N_of_ascii c in
  if Ascii.eqb c dquote then String backslash (String dquote "")
  else if Ascii.eqb c backslash then String backslash (String backslash "")
  else if (n =? 8)%N then String backslash "b"
  else if (n =? 9)%N then String backslash "t"
  else if (n =? 10)%N then String backslash "n"
  else if (n =? 12)%N then String backslash "f"
  else if (n =? 13)%N then String backslash "r"
  else if (n <? 32)%N then
    String backslash
      (String "u" (String "0" (String "0"
         (String (hex_digit (n / 16)) (String (hex_digit (n mod 16)) "")))))
  else String c "".

Fixpoint quote_body (s : string) : string :=
  match s with
  | "" => ""
  | String c s' => quote_char c +:+ quote_body s'
  end.

Definition QuoteJSONString (s : string) : string :=
  String dquote (quote_body s +:+ String dquote "").

(** The text between the brackets of a non-empty array or object. *)
Definition wrap (gap indent stepback : string) (partial : list string) : string :=
  if String.eqb gap "" then String.concat "," partial
  else LF +:+ indent +:+ String.concat ("," +:+ LF +:+ indent) partial
       +:+ LF +:+ stepback.

(** SerializeJSONProperty: [None] is the [undefined] result, which drops a
    property from an object and prints as [null] inside an array. *)
Fixpoint serialize (gap indent : string) (v : jsval) : option string :=
  match v with
  | JUndefined => None
  | JNull => Some "null"
  | JBool b => Some (if b then "true" else "false")
  | JString s => Some (QuoteJSONString s)
  | JArray xs =>
      let stepback := indent in
      let indent := indent +:+ gap in
      let partial := map (λ x, default "null" (serialize gap indent x)) xs in
      Some (match partial with
            | [] => "[]"
            | _ => "[" +:+ wrap gap indent stepback partial +:+ "]"
            end)
  | JObject ms =>
      let stepback := indent in
      let indent := indent +:+ gap in
      let partial :=
        omap (λ m : string * jsval,
                match serialize gap indent m.2 with
                | Some strP =>
                    Some (QuoteJSONString m.1 +:+ ":"
                          +:+ (if String.eqb gap "" then "" else " ") +:+ strP)
                | None => None
                end) ms in
      Some (match partial with
            | [] => "{}"
            | _ => "{" +:+ wrap gap indent stepback partial +:+ "}"
            end)
  end.

Fixpoint spaces (n : nat) : string :=
  match n with
  | 0 => ""
  | S n' => String " " (spaces n')
  end.

(** [JSON.stringify(value, null, space)] for a numeric [space]. *)
Definition JSON_stringify (value : jsval) (space : nat) : jsval :=
  match serialize (spaces (Nat.min space 10)) "" value with
  | Some text => JString text
  | None => JUndefined
  end.

(** JSON white space: tab, line feed, carriage return, space. *)
Definition is_ws (c : ascii) : bool :=
  let n := N_of_ascii c in
  ((n =? 9) || (n =? 10) || (n =? 13) || (n =? 32))%N.

Fixpoint skip_ws (s : string) : string :=
  match s with
  | "" => ""
  | String c s' => if is_ws c then skip_ws s' else s
  end.

Definition hex_value (c : ascii) : option N :=
  let n := N_of_ascii c in
  if ((48 <=? n) && (n <=? 57))%N then Some (n - 48)%N
  else if ((97 <=? n) && (n <=? 102))%N then Some (n - 87)%N
  else if ((65 <=? n) && (n <=? 70))%N then Some (n - 55)%N
  else None.

Definition hex4 (h1 h2 h3 h4 : ascii) : option N :=
  match hex_value h1, hex_value h2, hex_value h3, hex_value h4 with
  | Some a, Some b, Some c, Some d => Some (((a * 16 + b) * 16 + c) * 16 + d)%N
  | _, _, _, _ => None
  end.

(** The UTF-8 bytes of the character a [\uXXXX] escape denotes.  The halves
    of a surrogate pair are outside the byte model of strings ([None]);
    [JSON.stringify] never writes them for well-formed text. *)
Definition utf8 (n : N) : option string :=
  if (n <? 128)%N then Some (String (ascii_of_N n) "")
  else if (n <? 2048)%N then
    Some (String (ascii_of_N (192 + n / 64))
            (String (ascii_of_N (128 + n mod 64)) ""))
  else if ((55296 <=? n) && (n <=? 57343))%N then None
  else
    Some (String (ascii_of_N (224 + n / 4096))
            (String (ascii_of_N (128 + (n / 64) mod 64))
               (String (ascii_of_N (128 + n mod 64)) ""))).

Definition unescape (e : ascii) : option ascii :=
  if Ascii.eqb e dquote then Some dquote
  else if Ascii.eqb e backslash then Some backslash
  else if Ascii.eqb e "/" then Some "/"%char
  else if Ascii.eqb e "b" then Some "008"%char
  else if Ascii.eqb e "f" then Some "012"%char
  else if Ascii.eqb e "n" then Some "010"%char
  else if Ascii.eqb e "r" then Some "013"%char
  else if Ascii.eqb e "t" then Some "009"%char
  else None.

(** A string literal after its opening quote: the string it denotes and the
    text after its closing quote. *)
Fixpoint parse_string_body (s : string) : option (string * string) :=
  match s with
  | "" => None
  | String c r =>
      if Ascii.eqb c dquote then Some ("", r)
      else if Ascii.eqb c backslash then
        match r with
        | "" => None
        | String e r1 =>
            if Ascii.eqb e "u" then
              match r1 with
              | String h1 (String h2 (String h3 (String h4 r2))) =>
                  match hex4 h1 h2 h3 h4 with
                  | Some n =>
                      match utf8 n, parse_string_body r2 with
                      | Some bytes, Some (str, rest) => Some (bytes +:+ str, rest)
                      | _, _ => None
                      end
                  | None => None
                  end
              | _ => None
              end
            else
              match unescape e, parse_string_body r1 with
              | Some ch, Some (str, rest) => Some (String ch str, rest)
              | _, _ => None
              end
        end
      else if (N_of_ascii c <? 32)%N then None
      else
        match parse_string_body r with
        | Some (str, rest) => Some (String c str, rest)
        | None => None
        end
  end.

(** Skip white space, then read the character [c]. *)
Definition expect (c : ascii) (s : string) : option string :=
  match skip_ws s with
  | String c' r => if Ascii.eqb c' c then Some r else None
  | "" => None
  end.

Fixpoint strip_prefix (p s : string) : option string :=
  match p, s with
  | "", _ => Some s
  | String a p', String b s' => if Ascii.eqb a b then strip_prefix p' s' else None
  | String _ _, "" => None
  end.

(** The three literal names. *)
Definition parse_literal (s : string) : option (jsval * string) :=
  match strip_prefix "true" s with
  | Some r => Some (JBool true, r)
  | None =>
      match strip_prefix "false" s with
      | Some r => Some (JBool false, r)
      | None =>
          match strip_prefix "null" s with
          | Some r => Some (JNull, r)
          | None => None
          end
      end
  end.

(** A JSON value at the head of [s], and the text after it.  [fuel] bounds
    the nesting of calls; the length of the text is always enough.  A
    repeated key overwrites the value and keeps the first position.  Number
    literals are outside the fragment. *)
Fixpoint parse_value (fuel : nat) (s : string) : option (jsval * string) :=
  match fuel with
  | 0 => None
  | S fuel =>
      match skip_ws s with
      | "" => None
      | String c r =>
          if Ascii.eqb c "{" then
            match expect "}" r with
            | Some r' => Some (JObject [], r')
            | None => parse_members fuel [] r
            end
          else if Ascii.eqb c "[" then
            match expect "]" r with
            | Some r' => Some (JArray [], r')
            | None => parse_elements fuel [] r
            end
          else if Ascii.eqb c dquote then
            match parse_string_body r with
            | Some (str, rest) => Some (JString str, rest)
            | None => None
            end
          else parse_literal (String c r)
      end
  end
with parse_elements (fuel : nat) (acc : list jsval) (s : string)
  : option (jsval * string) :=
  match fuel with
  | 0 => None
  | S fuel =>
      match parse_value fuel s with
      | Some (v, r) =>
          match expect "," r with
          | Some r' => parse_elements fuel (acc ++ [v]) r'
          | None =>
              match expect "]" r with
              | Some r' => Some (JArray (acc ++ [v]), r')
              | None => None
              end
          end
      | None => None
      end
  end
with parse_members (fuel : nat) (acc : obj) (s : string)
  : option (jsval * string) :=
  match fuel with
  | 0 => None
  | S fuel =>
      match expect dquote s with
      | Some r =>
          match parse_string_body r with
          | Some (k, r1) =>
              match expect ":" r1 with
              | Some r2 =>
                  match parse_value fuel r2 with
                  | Some (v, r3) =>
                      match expect "," r3 with
                      | Some r4 => parse_members fuel (obj_set acc k v) r4
                      | None =>
                          match expect "}" r3 with
                          | Some r4 => Some (JObject (obj_set acc k v), r4)
                          | None => None
                          end
                      end
                  | None => None
                  end
              | None => None
              end
          | None => None
          end
      | None => None
      end
  end.

(** [JSON.parse(text)]; [None] is the SyntaxError. *)
Definition JSON_parse (text : string) : option jsval :=
  match parse_value (String.length text) text with
  | Some (v, r) => if String.eqb (skip_ws r) "" then Some v else None
  | None => None
  end.

(** The values [JSON.stringify] writes without loss: nothing undefined, and
    no key twice in an object. *)
Fixpoint json_safe (v : jsval) : bool :=
  match v with
  | JUndefined => false
  | JNull | JBool _ | JString _ => true
  | JArray xs => forallb json_safe xs
  | JObject ms =>
      forallb (λ m, json_safe m.2) ms && bool_decide (NoDup (map fst ms))
  end.

(** ** Node's primitives over the world *)

Section generate.
Variable H : host.

Definition try_catch {A} (m : M A) (handler : failure → M A) : M A :=
  λ w, match m w with
       | (Reject e, w') => handler e w'
       | r => r
       end.

(** [fs.stat(path)] resolves to the node or rejects. *)
Definition fs_stat (path : string) : M node :=
  let* f := get_fs in
  match f !! path with
  | Some n => ret n
  | None => reject (FsError "ENOENT" "stat" path)
  end.

Definition isDirectory (stat : node) : bool :=
  match stat with Dir => true | _ => false end.

Definition isFile (stat : node) : bool :=
  match stat with File _ => true | _ => false end.

(** Why a path cannot be opened for writing (flag [w]), if it cannot. *)
Definition open_error (path : string) (f : gmap string node) : option failure :=
  match f !! path with
  | Some (File _) => None
  | Some Dir => Some (FsError "EISDIR" "open" path)
  | Some Special => Some (FsError "ENXIO" "open" path)
  | None =>
      match f !! path_dirname H path with
      | Some Dir => None
      | Some _ => Some (FsError "ENOTDIR" "open" path)
      | None => Some (FsError "ENOENT" "open" path)
      end
  end.

(** [fs.mkdir(path)], not recursive. *)
Definition fs_mkdir (path : string) : M unit :=
  let* f := get_fs in
  match f !! path with
  | Some _ => reject (FsError "EEXIST" "mkdir" path)
  | None =>
      match f !! path_dirname H path with
      | Some Dir => put_fs (<[path := Dir]> f);; emit (Mkdir path)
      | Some _ => reject (FsError "ENOTDIR" "mkdir" path)
      | None => reject (FsError "ENOENT" "mkdir" path)
      end
  end.

(** [stream.pipeline(got.stream(url, {method: 'POST', json}),
    createWriteStream(dest))]: the request goes out, [dest] is created or
    truncated, and the bytes that arrive are written to it. *)
Definition pipeline (url : string) (json : jsval) (dest : string) : M unit :=
  emit (Post url json);;
  let* f := get_fs in
  match open_error dest f with
  | Some e => reject e
  | None =>
      match server H json with
      | Archive body =>
          put_fs (<[dest := File body]> f);; emit (WriteStream dest body)
      | Status code =>
          put_fs (<[dest := File ""]> f);; emit (WriteStream dest "");;
          reject (HTTPError code)
      | Broken received =>
          put_fs (<[dest := File received]> f);;
          emit (WriteStream dest received);;
          reject RequestError
      end
  end.

(** [extract(zip, {dir})]. *)
Definition extract (zip dir : string) : M unit :=
  let* f := get_fs in
  match f !! zip with
  | Some (File bytes) =>
      match extract_zip H bytes dir f with
      | Some f' => put_fs f';; emit (Extract zip dir)
      | None => reject ExtractError
      end
  | Some Dir => reject (FsError "EISDIR" "read" zip)
  | Some Special => reject (FsError "ENXIO" "open" zip)
  | None => reject (FsError "ENOENT" "open" zip)
  end.

(** [rm(path)] without options: neither recursive nor forced. *)
Definition rm (path : string) : M unit :=
  let* f := get_fs in
  match f !! path with
  | Some Dir => reject (FsError "ERR_FS_EISDIR" "rm" path)
  | Some _ => put_fs (delete path f);; emit (Rm path)
  | None => reject (FsError "ENOENT" "rm" path)
  end.

(** [fs.writeFile(path, data)]. *)
Definition fs_writeFile (path : string) (data : jsval) : M unit :=
  match data with
  | JString text =>
      let* f := get_fs in
      match open_error path f with
      | Some e => reject e
      | None => put_fs (<[path := File text]> f);; emit (WriteFile path text)
      end
  | _ => reject TypeError
  end.

(** A [list] question of inquirer: the cursor starts on the first choice,
    moves cyclically, and Enter answers with the value under it. *)
Record question : Type := Question {
  qname : string;
  qtype : string;
  message : option string;
  choices : list (string * string);
}.

Definition answer (q : question) : jsval :=
  match choices q !! (user H (qname q) mod length (choices q)) with
  | Some (_, value) => JString value
  | None => JUndefined
  end.

(** [inquirer.prompt(questions)]: one property per question, in order. *)
Definition inquirer_prompt (questions : list question) : M obj :=
  emit (Prompt (map qname questions));;
  ret (fold_left (λ acc q, obj_set acc (qname q) (answer q)) questions []).

(** ** generate.ts *)

Definition TEMP_FILE : string := path_join H (tmpdir H) "flatlogic.zip".

Definition required_message (option : string) : string :=
  "error: option '--" +:+ option +:+ "' is required".

(** Lines 179-186. *)
Definition validateOption (arg : obj) (option : string) : M jsval :=
  (if negb (truthy (obj_get arg option)) then
     console_error (Red (required_message option));;
     process_exit 1
   else ret tt);;
  ret (obj_get arg option).

(** Lines 188-196. *)
Definition cliMode (options : obj) : M obj :=
  let* frontend := validateOption options "frontend" in
  let* backend := validateOption options "backend" in
  let* db := validateOption options "db" in
  let* design := validateOption options "design" in
  ret [("frontend", frontend); ("backend", backend); ("db", db);
       ("design", design); ("entities", obj_get PRESETS "blank")].

Definition questions : list question :=
  [ Question "frontend" "list" (Some "Frontend framework") [("React", "react")];
    Question "backend" "list" (Some "Select backend stack") [("NodeJS", "nodejs")];
    Question "db" "list" (Some "Select database engine")
      [("PostgreSQL", "postgresql")];
    Question "design" "list" (Some "Choose design") [("Classic", "classic")];
    Question "schemaPreset" "list" None [("Blank", "blank")] ].

(** Lines 198-239. *)
Definition interactiveMode : M obj :=
  let* props := inquirer_prompt questions in
  ret (obj_set (obj_spread [] props) "entities"
         (obj_get PRESETS (to_key (obj_get props "schemaPreset")))).

(** Lines 241-250: falling off the end of the [try] block returns
    [undefined]. *)
Definition pathExists (path : string) : M jsval :=
  try_catch
    (let* stat := fs_stat path in
     if isDirectory stat || isFile stat then ret (JBool true)
     else ret JUndefined)
    (λ e, ret (JBool false)).

Definition exists_message (projectPath : string) : string :=
  "error: folder " +:+ projectPath +:+ " already exists".

Definition endpoint : string := "https://flatlogic.com/projects/cli".

(** Lines 265-267: the branch that selects the mode. *)
Definition resolve_props (options : obj) : M obj :=
  let hasArguments := negb (Nat.eqb (length (Object_keys options)) 0) in
  if hasArguments then cliMode options else interactiveMode.

(** Lines 268-271. *)
Definition make_app (name : string) (props : obj) : obj :=
  obj_spread [("title", JString name)] props.

(** The request body [{ schema: app }] (lines 277-279). *)
Definition request (app : obj) : jsval := JObject [("schema", JObject app)].

(** Lines 273-285. *)
Definition materialize (projectPath : string) (app : obj) : M unit :=
  fs_mkdir projectPath;;
  pipeline endpoint (request app) TEMP_FILE;;
  extract TEMP_FILE projectPath;;
  rm TEMP_FILE;;
  fs_writeFile (path_join H projectPath ".flatlogicrc")
    (JSON_stringify (JObject app) 2).

(** Line 259. *)
Definition projectPath (name : string) : string := path_join H (cwd H) name.

(** Lines 258-286: the action of the [generate] command. *)
Definition action (name : string) (options : obj) : M unit :=
  let* found := pathExists (projectPath name) in
  (if truthy found then
     console_error (Red (exists_message (projectPath name)));;
     process_exit 1
   else ret tt);;
  let* props := resolve_props options in
  let app := make_app name props in
  materialize (projectPath name) app.

End generate.

(** One invocation: the action starts on the files it finds, and nothing
    has happened yet. *)
Definition run (H : host) (name : string) (options : obj)
    (files : gmap string node) : outcome unit * world :=
  action H name options (World files []).

(** A regular file or a directory is at [path]. *)
Definition occupied (files : gmap string node) (path : string) : bool :=
  match files !! path with
  | Some (File _) | Some Dir => true
  | Some Special | None => false
  end.

(** The options the command requires, in the order [cliMode] reads them. *)
Definition required : list string := ["frontend"; "backend"; "db"; "design"].

(** The path of the sidecar file of a project. *)
Definition sidecar (H : host) (name : string) : string :=
  path_join H (projectPath H name) ".flatlogicrc".

(** The first required option whose value is falsy (absent or empty), in the
    order [cliMode] reads them. *)
Definition first_missing (options : obj) : option string :=
  find (λ k, negb (truthy (obj_get options k))) required.

(** What [cliMode] returns when nothing is missing. *)
Definition cli_props (options : obj) : obj :=
  [("frontend", obj_get options "frontend");
   ("backend", obj_get options "backend");
   ("db", obj_get options "db");
   ("design", obj_get options "design");
   ("entities", obj_get PRESETS "blank")].

(** What [interactiveMode] returns: every question offers one choice. *)
Definition interactive_props : obj :=
  [("frontend", JString "react"); ("backend", JString "nodejs");
   ("db", JString "postgresql"); ("design", JString "classic");
   ("schemaPreset", JString "blank"); ("entities", obj_get PRESETS "blank")].

Definition prompt_names : list string :=
  ["frontend"; "backend"; "db"; "design"; "schemaPreset"].

(** The events of a materialization in which every step succeeds. *)
Definition success_log (H : host) (p : string) (app : obj) (body text : string)
    : list event :=
  [Mkdir p; Post endpoint (request app); WriteStream (TEMP_FILE H) body;
   Extract (TEMP_FILE H) p; Rm (TEMP_FILE H);
   WriteFile (path_join H p ".flatlogicrc") text].

(** The events that can precede the write of the sidecar file. *)
Definition before_sidecar (e : event) : bool :=
  match e with
  | Mkdir _ | Post _ _ | WriteStream _ _ | Extract _ _ | Rm _ => true
  | Stderr _ | Prompt _ | WriteFile _ _ => false
  end.

(** ** Vocabulary of the round-trip proof *)

(** A string of white space: the parser skips it in front of anything. *)
Definition all_ws (s : string) : Prop := ∀ t, skip_ws (s +:+ t) = skip_ws t.

(** The items of a non-empty array or object as they are laid out: each one
    after [open], a comma between two, and [tail] after the last. *)
Fixpoint items (open : string) (texts : list string) (tail : string) : string :=
  match texts with
  | [] => tail
  | t :: ts =>
      open +:+ t +:+
        match ts with
        | [] => tail
        | _ :: _ => "," +:+ items open ts tail
        end
  end.

(** The text of one property: quoted key, colon, [sp], value. *)
Definition member_text (sp : string) (m : string * jsval) (tv : string) : string :=
  QuoteJSONString m.1 +:+ ":" +:+ sp +:+ tv.

(** A text that starts like a value: no white space, no closing bracket, no
    comma. *)
Definition value_head (text : string) : Prop :=
  ∃ c t, text = String c t ∧ is_ws c = false ∧
         c ≠ "]"%char ∧ c ≠ "}"%char ∧ c ≠ ","%char.

(** [text] is read back as [v], whatever follows it, given fuel for its
    length. *)
Definition parses_to (v : jsval) (text : string) : Prop :=
  value_head text ∧
  ∀ fuel rest, String.length text ≤ fuel →
    parse_value fuel (text +:+ rest) = Some (v, rest).

(** ** A machine to run the command on

    A small POSIX host: paths are joined with a slash, the service answers
    every request with the same archive, and the archive holds one file. *)

Fixpoint parent_of (s : string) : option string :=
  match s with
  | "" => None
  | String c r =>
      match parent_of r with
      | Some d => Some (String c d)
      | None => if Ascii.eqb c "/" then Some "" else None
      end
  end.

Definition posix_join (a b : string) : string := a +:+ "/" +:+ b.

Definition posix_dirname (p : string) : string :=
  match parent_of p with
  | Some "" => "/"
  | Some d => d
  | None => "."
  end.

Definition unzip_demo (bytes dir : string) (f : gmap string node)
    : option (gmap string node) :=
  Some (<[posix_join dir "package.json" := File bytes]> f).

Definition demo_host (answer : response) : host :=
  {| path_join := posix_join;
     path_dirname := posix_dirname;
     cwd := "/home/dev";
     tmpdir := "/tmp";
     server := λ _, answer;
     extract_zip := unzip_demo;
     user := λ _, 0 |}.

Definition demo_files : gmap string node :=
  <["/home/dev" := Dir]> (<["/tmp" := Dir]> ∅).

Definition demo_options : obj :=
  [("frontend", JString "react"); ("backend", JString "nodejs");
   ("db", JString "postgresql"); ("design", JString "classic")].

(** The same machine with the project directory already there, and with a
    socket in its place. *)
Definition taken_files : gmap string node :=
  <["/home/dev/shop" := Dir]> demo_files.

Definition socket_files : gmap string node :=
  <["/home/dev/shop" := Special]> demo_files.

Definition demo_app : obj := make_app "shop" (cli_props demo_options).

Definition demo_text : string :=
  match JSON_stringify (JObject demo_app) 2 with
  | JString text => text
  | _ => ""
  end.

Definition demo_interactive_text : string :=
  match JSON_stringify (JObject (make_app "shop" interactive_props)) 2 with
  | JString text => text
  | _ => ""
  end.

Definition demo_unzipped : gmap string node :=
  <["/home/dev/shop/package.json" := File "PK"]>
    (<["/tmp/flatlogic.zip" := File "PK"]>
       (<["/home/dev/shop" := Dir]> demo_files)).

(** ** How a materialization ends

    The stages of lines 273-285, one constructor for each place where the
    sequence can stop: the outcome, the files that are left and the events
    that were added. *)
Inductive ends (H : host) (p : string) (app : obj) (f : gmap string node)
  : outcome unit → gmap string node → list event → Prop :=
| ends_exists (n : node) :
    f !! p = Some n →
    ends H p app f (Reject (FsError "EEXIST" "mkdir" p)) f []
| ends_parent (code : string) :
    f !! p = None →
    (f !! path_dirname H p = None ∧ code = "ENOENT") ∨
    ((∃ n, f !! path_dirname H p = Some n ∧ n ≠ Dir) ∧ code = "ENOTDIR") →
    ends H p app f (Reject (FsError code "mkdir" p)) f []
| ends_open (e : failure) :
    f !! p = None →
    f !! path_dirname H p = Some Dir →
    open_error H (TEMP_FILE H) (<[p := Dir]> f) = Some e →
    ends H p app f (Reject e) (<[p := Dir]> f)
      [Mkdir p; Post endpoint (request app)]
| ends_status (code : nat) :
    f !! p = None →
    f !! path_dirname H p = Some Dir →
    open_error H (TEMP_FILE H) (<[p := Dir]> f) = None →
    server H (request app) = Status code →
    ends H p app f (Reject (HTTPError code))
      (<[TEMP_FILE H := File ""]> (<[p := Dir]> f))
      [Mkdir p; Post endpoint (request app); WriteStream (TEMP_FILE H) ""]
| ends_broken (received : string) :
    f !! p = None →
    f !! path_dirname H p = Some Dir →
    open_error H (TEMP_FILE H) (<[p := Dir]> f) = None →
    server H (request app) = Broken received →
    ends H p app f (Reject RequestError)
      (<[TEMP_FILE H := File received]> (<[p := Dir]> f))
      [Mkdir p; Post endpoint (request app);
       WriteStream (TEMP_FILE H) received]
| ends_extract (body : string) :
    f !! p = None →
    f !! path_dirname H p = Some Dir →
    open_error H (TEMP_FILE H) (<[p := Dir]> f) = None →
    server H (request app) = Archive body →
    extract_zip H body p (<[TEMP_FILE H := File body]> (<[p := Dir]> f))
      = None →
    ends H p app f (Reject ExtractError)
      (<[TEMP_FILE H := File body]> (<[p := Dir]> f))
      [Mkdir p; Post endpoint (request app); WriteStream (TEMP_FILE H) body]
| ends_rm (body code : string) (f3 : gmap string node) :
    f !! p = None →
    f !! path_dirname H p = Some Dir →
    open_error H (TEMP_FILE H) (<[p := Dir]> f) = None →
    server H (request app) = Archive body →
    extract_zip H body p (<[TEMP_FILE H := File body]> (<[p := Dir]> f))
      = Some f3 →
    (f3 !! TEMP_FILE H = None ∧ code = "ENOENT") ∨
    (f3 !! TEMP_FILE H = Some Dir ∧ code = "ERR_FS_EISDIR") →
    ends H p app f (Reject (FsError code "rm" (TEMP_FILE H))) f3
      [Mkdir p; Post endpoint (request app); WriteStream (TEMP_FILE H) body;
       Extract (TEMP_FILE H) p]
| ends_write (body : string) (f3 : gmap string node) (n : node) (e : failure) :
    f !! p = None →
    f !! path_dirname H p = Some Dir →
    open_error H (TEMP_FILE H) (<[p := Dir]> f) = None →
    server H (request app) = Archive body →
    extract_zip H body p (<[TEMP_FILE H := File body]> (<[p := Dir]> f))
      = Some f3 →
    f3 !! TEMP_FILE H = Some n → n ≠ Dir →
    open_error H (path_join H p ".flatlogicrc") (delete (TEMP_FILE H) f3)
      = Some e →
    ends H p app f (Reject e) (delete (TEMP_FILE H) f3)
      [Mkdir p; Post endpoint (request app); WriteStream (TEMP_FILE H) body;
       Extract (TEMP_FILE H) p; Rm (TEMP_FILE H)]
| ends_done (body text : string) (f3 : gmap string node) (n : node) :
    f !! p = None →
    f !! path_dirname H p = Some Dir →
    open_error H (TEMP_FILE H) (<[p := Dir]> f) = None →
    server H (request app) = Archive body →
    extract_zip H body p (<[TEMP_FILE H := File body]> (<[p := Dir]> f))
      = Some f3 →
    f3 !! TEMP_FILE H = Some n → n ≠ Dir →
    open_error H (path_join H p ".flatlogicrc") (delete (TEMP_FILE H) f3)
      = None →
    JSON_stringify (JObject app) 2 = JString text →
    ends H p app f (Ret tt)
      (<[path_join H p ".flatlogicrc" := File text]> (delete (TEMP_FILE H) f3))
      (success_log H p app body text).

(** The host of the demonstration with the temporary directory as working
    directory. *)
Definition tmp_host (answer : response) : host :=
  {| path_join := posix_join;
     path_dirname := posix_dirname;
     cwd := "/tmp";
     tmpdir := "/tmp";
     server := λ _, answer;
     extract_zip := unzip_demo;
     user := λ _, 0 |}.

(** The flags of the demonstration in another order, with a key the command
    does not read. *)
Definition shuffled_options : obj :=
  [("design", JString "classic"); ("verbose", JBool true);
   ("db", JString "postgresql"); ("frontend", JString "react");
   ("backend", JString "nodejs")].

(** What a failed download leaves on the machine of the demonstration. *)
Definition demo_leftover : gmap string node :=
  <["/tmp/flatlogic.zip" := File ""]> (<["/home/dev/shop" := Dir]> demo_files).

(** * Properties *)

(** ** The preset store *)

#[local] Instance JString_inj : Inj (=) (=) JString.
Proof. by intros ?? [= ->]. Qed.

Lemma users_field_names :
  map field_name (entity_fields users_entity) =
  JString <$>
    ["firstName"; "lastName"; "phoneNumber"; "email"; "role"; "disabled";
     "avatar"; "password"; "emailVerified"; "emailVerificationToken";
     "emailVerificationTokenExpiresAt"; "passwordResetToken";
     "passwordResetTokenExpiresAt"; "provider"].
Proof. reflexivity. Qed.

Lemma preset_entities_inv (p : string) (e : jsval) :
  e ∈ preset_entities p → p = "blank" ∧ e = users_entity.
Proof.
  unfold preset_entities.
  change (obj_get PRESETS p)
    with (if String.eqb "blank" p then JArray [users_entity] else JUndefined).
  destruct (String.eqb_spec "blank" p) as [<-|_]; cbn [elements].
  - intros ->%list_elem_of_singleton. done.
  - intros []%elem_of_nil.
Qed.

(** C2, as the specification words it, does not hold: the [users] entity of
    the [blank] preset does not have thirteen fields. *)
Lemma preset_store_not_thirteen :
  ¬ (Object_keys PRESETS = ["blank"] ∧
     ∃ e, preset_entities "blank" = [e] ∧
          entity_name e = JString "users" ∧
          length (entity_fields e) = 13).
Proof.
  intros [_ (e & He & _ & Hlen)].
  injection He as <-. discriminate Hlen.
Qed.

(** C2, amended: the preset store defines exactly one preset, [blank], which
    holds exactly one entity, [users], whose ordered field list has exactly
    fourteen fields. *)
Theorem preset_store_shape :
  Object_keys PRESETS = ["blank"] ∧
  ∃ e, preset_entities "blank" = [e] ∧
       entity_name e = JString "users" ∧
       length (entity_fields e) = 14.
Proof. split; [reflexivity|]. exists users_entity. repeat split. Qed.

(** C9: in every entity of every preset the field names are pairwise
    distinct, and they come in the order of the preset definition. *)
Theorem preset_field_names_distinct (p : string) (e : jsval) :
  e ∈ preset_entities p →
  NoDup (map field_name (entity_fields e)) ∧
  map field_name (entity_fields e) =
    [JString "firstName"; JString "lastName"; JString "phoneNumber";
     JString "email"; JString "role"; JString "disabled"; JString "avatar";
     JString "password"; JString "emailVerified";
     JString "emailVerificationToken";
     JString "emailVerificationTokenExpiresAt";
     JString "passwordResetToken"; JString "passwordResetTokenExpiresAt";
     JString "provider"].
Proof.
  intros [_ ->]%preset_entities_inv. split; [|reflexivity].
  rewrite users_field_names.
  apply (NoDup_fmap_2 JString). compute_done.
Qed.

Lemma preset_field_names_distinct_blank :
  users_entity ∈ preset_entities "blank" ∧
  NoDup (map field_name (entity_fields users_entity)).
Proof.
  assert (Hin : users_entity ∈ preset_entities "blank")
    by (apply list_elem_of_singleton; reflexivity).
  split; [exact Hin|].
  exact (proj1 (preset_field_names_distinct "blank" users_entity Hin)).
Defined.

(** ** Strings *)

Lemma sapp_nil_l (s : string) : "" +:+ s = s.
Proof. reflexivity. Qed.

Lemma sapp_cons (c : ascii) (s t : string) :
  String c s +:+ t = String c (s +:+ t).
Proof. reflexivity. Qed.

Lemma sapp_nil_r (s : string) : s +:+ "" = s.
Proof. induction s as [|c s IH]; [reflexivity|]. by rewrite sapp_cons, IH. Qed.

Lemma sapp_assoc (a b c : string) : (a +:+ b) +:+ c = a +:+ (b +:+ c).
Proof.
  induction a as [|x a IH]; [reflexivity|]. by rewrite !sapp_cons, IH.
Qed.

Lemma slength_app (a b : string) :
  String.length (a +:+ b) = String.length a + String.length b.
Proof.
  induction a as [|x a IH]; [reflexivity|].
  rewrite sapp_cons. cbn [String.length]. by rewrite IH.
Qed.

Ltac sapp_norm :=
  repeat first [rewrite sapp_assoc | rewrite sapp_cons | rewrite sapp_nil_l].

(** ** [JSON.parse] undoes [JSON.stringify] *)

Example stringify_indented :
  JSON_stringify
    (JArray [JBool true; JArray []; JObject []; JNull; JUndefined]) 2 =
  JString "[
  true,
  [],
  {},
  null,
  null
]".
Proof. reflexivity. Qed.

Example stringify_compact :
  JSON_stringify (JArray [JBool false; JArray [JNull]]) 0 =
  JString "[false,[null]]".
Proof. reflexivity. Qed.

Example stringify_escapes :
  JSON_stringify (JString (String "009"%char "a\b")) 2 =
  JString (String dquote ("\ta\\b" +:+ String dquote "")).
Proof. reflexivity. Qed.

Example stringify_undefined : JSON_stringify JUndefined 2 = JUndefined.
Proof. reflexivity. Qed.

Example parse_white_space :
  JSON_parse " [ true , [ ] ,null ] " =
  Some (JArray [JBool true; JArray []; JNull]).
Proof. reflexivity. Qed.

Example parse_trailing_comma : JSON_parse "[true,]" = None.
Proof. reflexivity. Qed.

Example parse_unicode_escape :
  JSON_parse (String dquote ("\u0041\n" +:+ String dquote "")) =
  Some (JString (String "A" LF)).
Proof. reflexivity. Qed.

(** One quoted character is read back as itself. *)
Lemma parse_string_body_quote_char (c : ascii) (tail : string) :
  parse_string_body (quote_char c +:+ tail) =
    match parse_string_body tail with
    | Some (str, rest) => Some (String c str, rest)
    | None => None
    end.
Proof. destruct c as [[] [] [] [] [] [] [] []]; reflexivity. Qed.

Lemma parse_string_body_quote (s rest : string) :
  parse_string_body (quote_body s +:+ String dquote rest) = Some (s, rest).
Proof.
  induction s as [|c s IH]; [reflexivity|].
  cbn [quote_body]. by rewrite sapp_assoc, parse_string_body_quote_char, IH.
Qed.

Lemma all_ws_nil : all_ws "".
Proof. by intros t. Qed.

Lemma all_ws_cons (c : ascii) (s : string) :
  is_ws c = true → all_ws s → all_ws (String c s).
Proof. intros Hc Hs t. rewrite sapp_cons. cbn [skip_ws]. by rewrite Hc. Qed.

Lemma all_ws_app (a b : string) : all_ws a → all_ws b → all_ws (a +:+ b).
Proof. intros Ha Hb t. by rewrite sapp_assoc, Ha, Hb. Qed.

Lemma all_ws_spaces (n : nat) : all_ws (spaces n).
Proof.
  induction n as [|n IH]; [apply all_ws_nil|]. by apply all_ws_cons.
Qed.

Lemma all_ws_LF : all_ws LF.
Proof. apply all_ws_cons; [done|apply all_ws_nil]. Qed.

Lemma skip_ws_head (c : ascii) (t : string) :
  is_ws c = false → skip_ws (String c t) = String c t.
Proof. intros Hc. cbn [skip_ws]. by rewrite Hc. Qed.

Lemma expect_hit (o : string) (c : ascii) (r : string) :
  all_ws o → is_ws c = false → expect c (o +:+ String c r) = Some r.
Proof.
  intros Ho Hc. unfold expect. rewrite Ho, skip_ws_head by done.
  by rewrite Ascii.eqb_refl.
Qed.

Lemma expect_miss (o : string) (c c' : ascii) (r : string) :
  all_ws o → is_ws c' = false → c' ≠ c → expect c (o +:+ String c' r) = None.
Proof.
  intros Ho Hc Hne. unfold expect. rewrite Ho, skip_ws_head by done.
  by apply Ascii.eqb_neq in Hne as ->.
Qed.

Lemma expect_head (c : ascii) (r : string) :
  is_ws c = false → expect c (String c r) = Some r.
Proof. intros Hc. by apply (expect_hit "" c r all_ws_nil). Qed.

(** One step of the parser. *)

Lemma parse_value_skip (fuel : nat) (o s : string) :
  all_ws o → parse_value fuel (o +:+ s) = parse_value fuel s.
Proof.
  intros Ho. destruct fuel as [|fuel]; [reflexivity|].
  cbn [parse_value]. by rewrite Ho.
Qed.

Lemma parse_value_string (fuel : nat) (r : string) :
  parse_value (S fuel) (String dquote r) =
    match parse_string_body r with
    | Some (str, rest) => Some (JString str, rest)
    | None => None
    end.
Proof. reflexivity. Qed.

Lemma parse_value_array (fuel : nat) (r : string) :
  parse_value (S fuel) (String "[" r) =
    match expect "]" r with
    | Some r' => Some (JArray [], r')
    | None => parse_elements fuel [] r
    end.
Proof. reflexivity. Qed.

Lemma parse_value_object (fuel : nat) (r : string) :
  parse_value (S fuel) (String "{" r) =
    match expect "}" r with
    | Some r' => Some (JObject [], r')
    | None => parse_members fuel [] r
    end.
Proof. reflexivity. Qed.

Lemma parse_elements_step (fuel : nat) (acc : list jsval) (s : string) :
  parse_elements (S fuel) acc s =
    match parse_value fuel s with
    | Some (v, r) =>
        match expect "," r with
        | Some r' => parse_elements fuel (acc ++ [v]) r'
        | None =>
            match expect "]" r with
            | Some r' => Some (JArray (acc ++ [v]), r')
            | None => None
            end
        end
    | None => None
    end.
Proof. reflexivity. Qed.

Lemma parse_members_step (fuel : nat) (acc : obj) (s : string) :
  parse_members (S fuel) acc s =
    match expect dquote s with
    | Some r =>
        match parse_string_body r with
        | Some (k, r1) =>
            match expect ":" r1 with
            | Some r2 =>
                match parse_value fuel r2 with
                | Some (v, r3) =>
                    match expect "," r3 with
                    | Some r4 => parse_members fuel (obj_set acc k v) r4
                    | None =>
                        match expect "}" r3 with
                        | Some r4 => Some (JObject (obj_set acc k v), r4)
                        | None => None
                        end
                    end
                | None => None
                end
            | None => None
            end
        | None => None
        end
    | None => None
    end.
Proof. reflexivity. Qed.

(** The layout of items. *)

Lemma concat_items (open : string) (texts : list string) (tail : string) :
  texts ≠ [] →
  open +:+ String.concat ("," +:+ open) texts +:+ tail = items open texts tail.
Proof.
  induction texts as [|t ts IH]; [done|]. intros _.
  destruct ts as [|t' ts]; [reflexivity|].
  cbn [items String.concat] in *.
  rewrite <- IH by done. by rewrite !sapp_assoc.
Qed.

Lemma wrap_items (gap indent stepback : string) (texts : list string)
    (tail : string) :
  texts ≠ [] →
  wrap gap indent stepback texts +:+ tail =
    items (if String.eqb gap "" then "" else LF +:+ indent) texts
      ((if String.eqb gap "" then "" else LF +:+ stepback) +:+ tail).
Proof.
  intros Hne. unfold wrap. rewrite <- concat_items by done.
  destruct (String.eqb gap ""); [reflexivity|]. by rewrite !sapp_assoc.
Qed.

Lemma items_length (open : string) (texts : list string) (tail : string) :
  String.length (items open texts tail) =
    String.length (items open texts "") + String.length tail.
Proof.
  induction texts as [|t ts IH]; [reflexivity|].
  cbn [items]. destruct ts as [|t' ts].
  - rewrite !slength_app. cbn [String.length]. lia.
  - rewrite !slength_app, IH. lia.
Qed.

Lemma parse_elements_items (open : string) (xs : list jsval)
    (texts : list string) :
  all_ws open → Forall2 parses_to xs texts → xs ≠ [] →
  ∀ acc close rest fuel,
    all_ws close →
    String.length (items open texts "") < fuel →
    parse_elements fuel acc (items open texts (close +:+ String "]" rest)) =
      Some (JArray (acc ++ xs), rest).
Proof.
  intros Hopen Hall. induction Hall as [|x t xs ts [Hhead Hx] Hall IH]; [done|].
  intros _ acc close rest fuel Hclose Hfuel.
  destruct fuel as [|fuel]; [lia|].
  rewrite parse_elements_step. cbn [items] in *.
  rewrite parse_value_skip, Hx by (try done;
    rewrite !slength_app in Hfuel; lia).
  destruct Hall as [|x' t' xs ts Hx' Hall].
  - rewrite expect_miss, expect_hit by done. reflexivity.
  - rewrite sapp_cons, sapp_nil_l.
    rewrite expect_head by done.
    rewrite IH; [by rewrite <- app_assoc|done|done|].
    rewrite !slength_app in Hfuel. cbn [String.length] in Hfuel.
    fold (items open (t' :: ts) "") in Hfuel. lia.
Qed.

Lemma obj_set_fresh (acc : obj) (k : string) (v : jsval) :
  k ∉ map fst acc → obj_set acc k v = acc ++ [(k, v)].
Proof.
  induction acc as [|[k' v'] acc IH]; [done|].
  cbn [map fst obj_set]. intros Hk.
  apply not_elem_of_cons in Hk as [Hne Hk].
  destruct (String.eqb_spec k' k) as [->|_]; [done|].
  by rewrite IH.
Qed.

Lemma parse_members_items (open sp : string) (ms : obj) (texts : list string) :
  all_ws open → all_ws sp →
  Forall2 (λ m tv, parses_to m.2 tv) ms texts → ms ≠ [] →
  ∀ acc close rest fuel,
    NoDup (map fst (acc ++ ms)) →
    all_ws close →
    String.length (items open (zip_with (member_text sp) ms texts) "") < fuel →
    parse_members fuel acc
      (items open (zip_with (member_text sp) ms texts)
         (close +:+ String "}" rest)) =
      Some (JObject (acc ++ ms), rest).
Proof.
  intros Hopen Hsp Hall.
  induction Hall as [|[k v] t ms ts [Hhead Hv] Hall IH]; [done|].
  intros _ acc close rest fuel Hdup Hclose Hfuel.
  destruct fuel as [|fuel]; [lia|].
  assert (Hfresh : k ∉ map fst acc).
  { rewrite map_app in Hdup. apply NoDup_app in Hdup as (_ & Hdis & _).
    intros Hin. apply (Hdis k Hin). cbn. apply elem_of_cons. by left. }
  rewrite parse_members_step. cbn [zip_with items] in *.
  unfold member_text at 1. unfold member_text at 1 in Hfuel.
  cbn [fst snd] in *. unfold QuoteJSONString in *.
  sapp_norm.
  rewrite expect_hit by done.
  rewrite parse_string_body_quote.
  rewrite expect_head by done.
  rewrite !slength_app in Hfuel. cbn [String.length] in Hfuel.
  rewrite parse_value_skip, Hv by (done || lia).
  rewrite obj_set_fresh by done.
  destruct Hall as [|[k' v'] t' ms ts Hx' Hall].
  - cbn [zip_with]. rewrite expect_miss, expect_hit by done. reflexivity.
  - cbn [zip_with] in *. rewrite expect_head by done.
    rewrite IH; [by rewrite <- app_assoc|done|by rewrite <- app_assoc|done|].
    rewrite !slength_app in Hfuel. cbn [String.length] in Hfuel. lia.
Qed.

Lemma value_head_intro (c : ascii) (t : string) :
  is_ws c = false → c ≠ "]"%char → c ≠ "}"%char → c ≠ ","%char →
  value_head (String c t).
Proof. intros. by exists c, t. Qed.

Lemma expect_miss_value (o : string) (c : ascii) (text tail : string) :
  all_ws o → value_head text → (c = "]" ∨ c = "}" ∨ c = ",")%char →
  expect c (o +:+ text +:+ tail) = None.
Proof.
  intros Ho (c' & t & -> & Hws & H1 & H2 & H3) Hc.
  rewrite sapp_cons. apply expect_miss; [done..|].
  by destruct Hc as [->|[->| ->]].
Qed.

Lemma items_head_miss (c : ascii) (open : string) (t : string)
    (ts : list string) (tail : string) :
  all_ws open → value_head t → (c = "]" ∨ c = "}" ∨ c = ",")%char →
  expect c (items open (t :: ts) tail) = None.
Proof. intros. cbn [items]. by apply expect_miss_value. Qed.

(** The serializer and the parser agree, for a fixed [gap] of white space and
    at every indentation. *)
Section serialize_parses.
Variable gap : string.
Hypothesis Hgap : all_ws gap.

Lemma all_ws_open (indent : string) :
  all_ws indent → all_ws (if String.eqb gap "" then "" else LF +:+ indent).
Proof.
  intros Hi. destruct (String.eqb gap "").
  - apply all_ws_nil.
  - by apply all_ws_app; [apply all_ws_LF|].
Qed.

Lemma array_texts (indent : string) (xs : list jsval) :
  Forall (λ x, json_safe x = true →
               ∃ text, serialize gap indent x = Some text ∧ parses_to x text) xs →
  forallb json_safe xs = true →
  ∃ texts, Forall2 parses_to xs texts ∧
           map (λ x, default "null" (serialize gap indent x)) xs = texts.
Proof.
  induction 1 as [|x xs Hx _ IH]; intros Hsafe.
  - by exists [].
  - cbn [forallb] in Hsafe. apply andb_true_iff in Hsafe as [Hs1 Hs2].
    destruct (Hx Hs1) as (t & Ht & Hp), (IH Hs2) as (ts & Hts & Hmap).
    exists (t :: ts). split; [by constructor|].
    cbn [map]. by rewrite Ht, Hmap.
Qed.

Lemma object_texts (indent : string) (ms : obj) :
  Forall (λ m, json_safe m.2 = true →
               ∃ text, serialize gap indent m.2 = Some text ∧
                       parses_to m.2 text) ms →
  forallb (λ m, json_safe m.2) ms = true →
  ∃ texts,
    Forall2 (λ m tv, parses_to m.2 tv) ms texts ∧
    omap (λ m : string * jsval,
            match serialize gap indent m.2 with
            | Some strP =>
                Some (QuoteJSONString m.1 +:+ ":"
                      +:+ (if String.eqb gap "" then "" else " ") +:+ strP)
            | None => None
            end) ms =
      zip_with (member_text (if String.eqb gap "" then "" else " ")) ms texts.
Proof.
  induction 1 as [|m ms Hm _ IH]; intros Hsafe.
  - by exists [].
  - cbn [forallb] in Hsafe. apply andb_true_iff in Hsafe as [Hs1 Hs2].
    destruct (Hm Hs1) as (t & Ht & Hp), (IH Hs2) as (ts & Hts & Hmap).
    exists (t :: ts). split; [by constructor|].
    cbn [omap list_omap zip_with]. rewrite Ht.
    f_equal. exact Hmap.
Qed.

Lemma serialize_parses (v : jsval) :
  json_safe v = true →
  ∀ indent, all_ws indent →
    ∃ text, serialize gap indent v = Some text ∧ parses_to v text.
Proof.
  induction v as [| |b|s|xs IH|ms IH] using jsval_nested_ind; intros Hsafe indent Hindent;
    try discriminate Hsafe.
  - exists "null". split; [done|]. split; [by apply value_head_intro|].
    intros [|fuel] rest Hfuel; [cbn in Hfuel; lia|reflexivity].
  - exists (if b then "true" else "false"). split; [done|].
    split; [by destruct b; apply value_head_intro|].
    intros [|fuel] rest Hfuel; [destruct b; cbn in Hfuel; lia|].
    by destruct b.
  - exists (QuoteJSONString s). split; [done|].
    split; [by apply value_head_intro|].
    intros [|fuel] rest Hfuel; [cbn in Hfuel; lia|].
    unfold QuoteJSONString. sapp_norm.
    by rewrite parse_value_string, parse_string_body_quote.
  - cbn [json_safe] in Hsafe. cbn [serialize].
    destruct (array_texts (indent +:+ gap) xs) as (texts & Hall & ->);
      [| done |].
    { eapply Forall_impl; [exact IH|]. intros x Hx Hs.
      apply Hx; [done|]. by apply all_ws_app. }
    destruct Hall as [|x t xs ts Hx Hall].
    + exists "[]". split; [done|]. split; [by apply value_head_intro|].
      intros [|fuel] rest Hfuel; [cbn in Hfuel; lia|reflexivity].
    + eexists. split; [reflexivity|]. split; [by apply value_head_intro|].
      intros [|fuel] rest Hfuel;
        [exfalso; revert Hfuel; sapp_norm; cbn [String.length]; lia|].
      revert Hfuel. sapp_norm. cbn [String.length].
      rewrite !wrap_items by done.
      rewrite (items_length _ _ (_ +:+ "]")), slength_app. intros Hfuel.
      rewrite parse_value_array.
      rewrite items_head_miss; [|by apply all_ws_open, all_ws_app|apply Hx|auto].
      rewrite parse_elements_items with (xs := x :: xs);
        [done|by apply all_ws_open, all_ws_app|by constructor|done| |].
      * by apply all_ws_open.
      * cbn [String.length] in Hfuel. lia.
  - cbn [json_safe] in Hsafe. apply andb_true_iff in Hsafe as [Hsafe Hdup].
    apply bool_decide_eq_true in Hdup. cbn [serialize].
    destruct (object_texts (indent +:+ gap) ms) as (texts & Hall & ->);
      [| done |].
    { eapply Forall_impl; [exact IH|]. intros x Hx Hs.
      apply Hx; [done|]. by apply all_ws_app. }
    destruct Hall as [|[k v] t ms ts Hx Hall].
    + exists "{}". split; [done|]. split; [by apply value_head_intro|].
      intros [|fuel] rest Hfuel; [cbn in Hfuel; lia|reflexivity].
    + cbn [zip_with].
      eexists. split; [reflexivity|]. split; [by apply value_head_intro|].
      intros [|fuel] rest Hfuel;
        [exfalso; revert Hfuel; sapp_norm; cbn [String.length]; lia|].
      revert Hfuel. sapp_norm. cbn [String.length].
      rewrite !wrap_items by done.
      rewrite (items_length _ _ (_ +:+ "}")), slength_app. intros Hfuel.
      rewrite parse_value_object.
      assert (Hsp : all_ws (if String.eqb gap "" then "" else " ")).
      { destruct (String.eqb gap ""); [apply all_ws_nil|].
        by apply all_ws_cons; [|apply all_ws_nil]. }
      rewrite items_head_miss;
        [|by apply all_ws_open, all_ws_app|by apply value_head_intro|auto].
      change (member_text ?sp (k, v) t :: zip_with (member_text ?sp) ms ts)
        with (zip_with (member_text sp) ((k, v) :: ms) (t :: ts)) in *.
      rewrite parse_members_items;
        [done|by apply all_ws_open, all_ws_app|done|by constructor|done
        |done|by apply all_ws_open|].
      cbn [String.length] in Hfuel. lia.
Qed.
End serialize_parses.

(** [JSON.parse(JSON.stringify(v, null, space))] is [v] again. *)
Theorem JSON_round_trip (v : jsval) (space : nat) (text : string) :
  json_safe v = true →
  JSON_stringify v space = JString text →
  JSON_parse text = Some v.
Proof.
  intros Hsafe. unfold JSON_stringify, JSON_parse.
  destruct (serialize_parses _ (all_ws_spaces (Nat.min space 10)) v Hsafe ""
              all_ws_nil) as (text' & -> & _ & Hparse).
  intros [= <-].
  rewrite <- (sapp_nil_r text') at 2. by rewrite Hparse.
Qed.

(** ** The steps of the action *)

Ltac run_steps :=
  unfold bind, ret, get_fs, put_fs, reject, console_error, emit, process_exit;
  cbn [fs log].

Lemma pathExists_eq (path : string) (w : world) :
  pathExists path w =
    (Ret (match fs w !! path with
          | Some (File _) | Some Dir => JBool true
          | Some Special => JUndefined
          | None => JBool false
          end), w).
Proof.
  unfold pathExists, try_catch, fs_stat. run_steps.
  by destruct (fs w !! path) as [[]|].
Qed.

Lemma action_eq (H : host) (name : string) (options : obj) (w : world) :
  action H name options w =
    if occupied (fs w) (projectPath H name) then
      (Exit 1,
       World (fs w) (log w ++ [Stderr (Red (exists_message (projectPath H name)))]))
    else
      bind (resolve_props H options)
        (λ props, materialize H (projectPath H name) (make_app name props)) w.
Proof.
  unfold action, occupied. unfold bind at 1 2.
  rewrite pathExists_eq.
  by destruct (fs w !! projectPath H name) as [[]|].
Qed.

Lemma cliMode_eq (options : obj) (w : world) :
  cliMode options w =
    match first_missing options with
    | Some o =>
        (Exit 1, World (fs w) (log w ++ [Stderr (Red (required_message o))]))
    | None => (Ret (cli_props options), w)
    end.
Proof.
  unfold cliMode, validateOption, first_missing, required. run_steps.
  cbn [find].
  destruct (truthy (obj_get options "frontend")); cbn [negb]; [|reflexivity].
  destruct (truthy (obj_get options "backend")); cbn [negb]; [|reflexivity].
  destruct (truthy (obj_get options "db")); cbn [negb]; [|reflexivity].
  destruct (truthy (obj_get options "design")); cbn [negb]; [|reflexivity].
  by destruct w.
Qed.

Lemma interactiveMode_eq (H : host) (w : world) :
  interactiveMode H w =
    (Ret interactive_props, World (fs w) (log w ++ [Prompt prompt_names])).
Proof.
  unfold interactiveMode, inquirer_prompt, questions. run_steps.
  unfold answer. cbn [fold_left choices qname length map].
  by rewrite !Nat.mod_1_r.
Qed.

Lemma resolve_props_eq (H : host) (options : obj) (w : world) :
  resolve_props H options w =
    match Object_keys options with
    | [] => interactiveMode H w
    | _ :: _ => cliMode options w
    end.
Proof. unfold resolve_props. by destruct options. Qed.

Lemma stringify_object (ms : obj) (n : nat) :
  ∃ text, JSON_stringify (JObject ms) n = JString text.
Proof. unfold JSON_stringify. cbn [serialize]. eauto. Qed.

Ltac finish_reject :=
  eexists _, _, _; split;
  [first [rewrite <- ?app_assoc; cbn [Datatypes.app]; reflexivity
         |rewrite app_nil_r; reflexivity]|];
  right; split; [eauto|]; by repeat constructor.

(** Every way [materialize] can end. *)
Lemma materialize_cases (H : host) (p : string) (app : obj) (w : world) :
  ∃ o files' evs,
    materialize H p app w = (o, World files' (log w ++ evs)) ∧
    ((o = Ret tt ∧
      ∃ body fs3 text,
        server H (request app) = Archive body ∧
        JSON_stringify (JObject app) 2 = JString text ∧
        extract_zip H body p
          (<[TEMP_FILE H := File body]> (<[p := Dir]> (fs w))) = Some fs3 ∧
        files' = <[path_join H p ".flatlogicrc" := File text]>
                   (delete (TEMP_FILE H) fs3) ∧
        evs = success_log H p app body text)
     ∨ ((∃ f, o = Reject f) ∧ Forall (λ e, before_sidecar e = true) evs)).
Proof.
  destruct w as [f l].
  destruct (stringify_object app 2) as [text Htext].
  unfold materialize. rewrite Htext.
  unfold fs_mkdir, pipeline, extract, rm, fs_writeFile. run_steps.
  destruct (f !! p); cbn [fs log]; [finish_reject|].
  destruct (f !! path_dirname H p) as [[]|]; cbn [fs log]; try finish_reject.
  destruct (open_error H (TEMP_FILE H) (<[p:=Dir]> f)); cbn [fs log];
    [finish_reject|].
  destruct (server H (request app)) as [body|code|part] eqn:Hserver;
    cbn [fs log]; try finish_reject.
  rewrite lookup_insert_eq.
  destruct (extract_zip H body p _) as [fs3|] eqn:Hx; cbn [fs log];
    [|finish_reject].
  destruct (fs3 !! TEMP_FILE H) as [[]|]; cbn [fs log]; try finish_reject.
  all: destruct (open_error H _ _); cbn [fs log]; [finish_reject|].
  all: eexists _, _, _; split;
      [rewrite <- ?app_assoc; cbn [Datatypes.app]; reflexivity|].
  all: left; split; [done|]; by exists body, fs3, text.
Qed.

(** The run when every step succeeds. *)
Lemma materialize_ok (H : host) (p : string) (app : obj) (w : world)
    (body text c : string) (fs3 : gmap string node) :
  fs w !! p = None →
  fs w !! path_dirname H p = Some Dir →
  open_error H (TEMP_FILE H) (<[p := Dir]> (fs w)) = None →
  server H (request app) = Archive body →
  extract_zip H body p (<[TEMP_FILE H := File body]> (<[p := Dir]> (fs w)))
    = Some fs3 →
  fs3 !! TEMP_FILE H = Some (File c) →
  open_error H (path_join H p ".flatlogicrc") (delete (TEMP_FILE H) fs3) = None →
  JSON_stringify (JObject app) 2 = JString text →
  materialize H p app w =
    (Ret tt,
     World (<[path_join H p ".flatlogicrc" := File text]>
              (delete (TEMP_FILE H) fs3))
       (log w ++ success_log H p app body text)).
Proof.
  intros Hfree Hparent Htmp Hserver Hx Hzip Hside Htext.
  unfold materialize. rewrite Htext.
  unfold fs_mkdir, pipeline, extract, rm, fs_writeFile. run_steps.
  rewrite Hfree, Hparent. cbn [fs log]. rewrite Htmp, Hserver. cbn [fs log].
  rewrite lookup_insert_eq, Hx. cbn [fs log]. rewrite Hzip. cbn [fs log].
  rewrite Hside. cbn [fs log].
  by rewrite <- !app_assoc.
Qed.

(** Every way a run can go up to the materializer. *)
Lemma run_cases (H : host) (name : string) (options : obj)
    (files : gmap string node) :
  (occupied files (projectPath H name) = true ∧
   run H name options files =
     (Exit 1, World files [Stderr (Red (exists_message (projectPath H name)))]))
  ∨ (occupied files (projectPath H name) = false ∧
     ∃ o, Object_keys options ≠ [] ∧ first_missing options = Some o ∧
          run H name options files =
            (Exit 1, World files [Stderr (Red (required_message o))]))
  ∨ (occupied files (projectPath H name) = false ∧
     Object_keys options ≠ [] ∧ first_missing options = None ∧
     run H name options files =
       materialize H (projectPath H name) (make_app name (cli_props options))
         (World files []))
  ∨ (occupied files (projectPath H name) = false ∧
     Object_keys options = [] ∧
     run H name options files =
       materialize H (projectPath H name) (make_app name interactive_props)
         (World files [Prompt prompt_names])).
Proof.
  unfold run. rewrite action_eq. cbn [fs log].
  destruct (occupied files (projectPath H name)); [by left|]. right.
  unfold bind. rewrite resolve_props_eq.
  destruct (Object_keys options) as [|k ks] eqn:Hkeys.
  - right; right. by rewrite interactiveMode_eq.
  - rewrite cliMode_eq. destruct (first_missing options) as [o|] eqn:Hmiss.
    + left. split; [done|]. by exists o.
    + right; left. done.
Qed.

(** ** The [Application] that is sent and written *)

Lemma make_app_cli (name : string) (options : obj) :
  make_app name (cli_props options) = ("title", JString name) :: cli_props options.
Proof. reflexivity. Qed.

Lemma make_app_interactive (name : string) :
  make_app name interactive_props = ("title", JString name) :: interactive_props.
Proof. reflexivity. Qed.

Lemma blank_safe : json_safe (obj_get PRESETS "blank") = true.
Proof. vm_compute. reflexivity. Qed.

Lemma obj_get_safe (options : obj) (k : string) :
  forallb (λ m, json_safe m.2) options = true →
  truthy (obj_get options k) = true →
  json_safe (obj_get options k) = true.
Proof.
  induction options as [|[k' v] options IH]; [done|].
  cbn [forallb obj_get snd]. intros [Hv Hrest]%andb_true_iff Ht.
  destruct (String.eqb k' k); auto.
Qed.

Lemma first_missing_none (options : obj) :
  first_missing options = None →
  Forall (λ k, truthy (obj_get options k) = true) required.
Proof.
  unfold first_missing, required. cbn [find].
  destruct (truthy (obj_get options "frontend")) eqn:H1; [|done].
  destruct (truthy (obj_get options "backend")) eqn:H2; [|done].
  destruct (truthy (obj_get options "db")) eqn:H3; [|done].
  destruct (truthy (obj_get options "design")) eqn:H4; [|done].
  intros _. repeat apply Forall_cons_2; done.
Qed.

Lemma cli_app_safe (name : string) (options : obj) :
  forallb (λ m, json_safe m.2) options = true →
  first_missing options = None →
  json_safe (JObject (make_app name (cli_props options))) = true.
Proof.
  intros Hsafe Hmiss. apply first_missing_none in Hmiss.
  unfold required in Hmiss.
  apply Forall_cons in Hmiss as [H1 Hmiss].
  apply Forall_cons in Hmiss as [H2 Hmiss].
  apply Forall_cons in Hmiss as [H3 Hmiss].
  apply Forall_cons in Hmiss as [H4 _].
  rewrite make_app_cli. unfold cli_props.
  cbn [json_safe forallb snd].
  rewrite blank_safe, !obj_get_safe by done.
  reflexivity.
Qed.

Lemma interactive_app_safe (name : string) :
  json_safe (JObject (make_app name interactive_props)) = true.
Proof. reflexivity. Qed.

Lemma messages_differ (p o : string) : exists_message p ≠ required_message o.
Proof. intros Heq. vm_compute in Heq. discriminate Heq. Qed.

(** ** The existence check *)

Lemma run_occupied (H : host) (name : string) (options : obj)
    (files : gmap string node) :
  occupied files (projectPath H name) = true →
  run H name options files =
    (Exit 1, World files [Stderr (Red (exists_message (projectPath H name)))]).
Proof.
  intros Hocc. unfold run. rewrite action_eq. cbn [fs log]. by rewrite Hocc.
Qed.

(** C6: whenever a file or a directory is already at the target path, the
    command prints the [already exists] error and exits with status 1, and
    that is all it does: the files are what they were, no directory is
    created and no request is sent. *)
Theorem existing_target_aborts (H : host) (name : string) (options : obj)
    (files : gmap string node) :
  occupied files (projectPath H name) = true →
  run H name options files =
    (Exit 1, World files [Stderr (Red (exists_message (projectPath H name)))]) ∧
  exit_status (run H name options files).1 = 1 ∧
  fs (run H name options files).2 = files ∧
  (∀ p, Mkdir p ∉ log (run H name options files).2) ∧
  (∀ url json, Post url json ∉ log (run H name options files).2).
Proof.
  intros Hocc. rewrite run_occupied by done. cbn [fst snd fs log exit_status].
  repeat split; by intros * ?%list_elem_of_singleton.
Qed.

Lemma existing_target_aborts_demo :
  occupied taken_files (projectPath (demo_host (Archive "PK")) "shop") = true ∧
  run (demo_host (Archive "PK")) "shop" demo_options taken_files =
    (Exit 1,
     World taken_files
       [Stderr (Red "error: folder /home/dev/shop already exists")]).
Proof.
  assert (Hocc : occupied taken_files
                   (projectPath (demo_host (Archive "PK")) "shop") = true)
    by (vm_compute; reflexivity).
  split; [exact Hocc|].
  exact (proj1 (existing_target_aborts (demo_host (Archive "PK")) "shop"
                  demo_options taken_files Hocc)).
Defined.

(** ** Missing options *)

(** C1, as the specification words it, does not hold: with a flag supplied, a
    required option missing and the target directory already there, the
    error that is printed does not name the option. *)
Lemma missing_option_masked_by_existing_target :
  ¬ (∀ (H : host) (name : string) (options : obj) (files : gmap string node)
       (o : string),
       Object_keys options ≠ [] →
       first_missing options = Some o →
       Stderr (Red (required_message o)) ∈ log (run H name options files).2).
Proof.
  intros Hclaim.
  specialize (Hclaim (demo_host (Archive "PK")) "shop"
                [("frontend", JString "react")] taken_files "backend").
  rewrite run_occupied in Hclaim by (vm_compute; reflexivity).
  cbn [snd log] in Hclaim.
  apply list_elem_of_singleton in Hclaim; [|done|reflexivity].
  vm_compute in Hclaim. discriminate Hclaim.
Qed.

(** C1, amended: in non-interactive mode, when no file or directory is at the
    target path (the existence check runs before the options are read), the
    required options are checked in the order frontend, backend, db, design;
    the first one whose value is absent or empty is named in the error
    message, the process exits with status 1, and nothing else happens: no
    directory is created. *)
Theorem missing_option_aborts (H : host) (name : string) (options : obj)
    (files : gmap string node) (o : string) :
  Object_keys options ≠ [] →
  first_missing options = Some o →
  occupied files (projectPath H name) = false →
  run H name options files =
    (Exit 1, World files [Stderr (Red (required_message o))]).
Proof.
  intros Hkeys Hmiss Hfree.
  destruct (run_cases H name options files)
    as [[Hocc _]|[(_ & o' & _ & Hmiss' & Hrun)|[(_ & _ & Hnone & _)|(_ & Hnil & _)]]];
    congruence.
Qed.

Lemma missing_option_aborts_demo :
  Object_keys [("frontend", JString "react"); ("db", JString "")] ≠ [] ∧
  first_missing [("frontend", JString "react"); ("db", JString "")]
    = Some "backend" ∧
  occupied demo_files (projectPath (demo_host (Archive "PK")) "shop") = false ∧
  run (demo_host (Archive "PK")) "shop"
    [("frontend", JString "react"); ("db", JString "")] demo_files =
    (Exit 1,
     World demo_files [Stderr (Red "error: option '--backend' is required")]).
Proof.
  assert (Hfree : occupied demo_files
                    (projectPath (demo_host (Archive "PK")) "shop") = false)
    by (vm_compute; reflexivity).
  split; [discriminate|]. split; [reflexivity|]. split; [exact Hfree|].
  apply (missing_option_aborts (demo_host (Archive "PK")) "shop"
           [("frontend", JString "react"); ("db", JString "")] demo_files
           "backend"); [discriminate|reflexivity|exact Hfree].
Defined.

(** ** The choice of mode *)

Lemma materialize_log (H : host) (p : string) (app : obj) (w : world) :
  ∃ evs, log (materialize H p app w).2 = log w ++ evs ∧
         Forall (λ e, ∀ qs, e ≠ Prompt qs) evs ∧
         Forall (λ e, ∀ m, e ≠ Stderr m) evs.
Proof.
  destruct (materialize_cases H p app w)
    as (o & files' & evs & -> & [(_ & body & fs3 & text & _ & _ & _ & _ & Hevs)
                                |(_ & Hevs)]);
    exists evs; cbn [snd log]; (split; [done|]).
  - rewrite Hevs. split; by repeat constructor.
  - split; eapply Forall_impl; try exact Hevs; by intros [] ?.
Qed.

Lemma resolve_props_fs (H : host) (options : obj) (w : world) :
  fs (resolve_props H options w).2 = fs w.
Proof.
  rewrite resolve_props_eq. destruct (Object_keys options).
  - by rewrite interactiveMode_eq.
  - rewrite cliMode_eq. by destruct (first_missing options).
Qed.

Lemma cliMode_entities (options : obj) (w w' : world) (props : obj) :
  cliMode options w = (Ret props, w') →
  w' = w ∧ obj_get props "entities" = obj_get PRESETS "blank".
Proof.
  rewrite cliMode_eq. destruct (first_missing options); [done|].
  by intros [= <- <-].
Qed.

(** C8, as the specification words it, does not hold: with no flag at all
    and the target directory already there, nothing is prompted. *)
Lemma zero_flags_without_prompt :
  ¬ (∀ (H : host) (name : string) (options : obj) (files : gmap string node),
       (∃ qs, Prompt qs ∈ log (run H name options files).2) ↔
       Object_keys options = []).
Proof.
  intros Hclaim.
  destruct (proj2 (Hclaim (demo_host (Archive "PK")) "shop" [] taken_files)
              eq_refl) as [qs Hin].
  rewrite run_occupied in Hin by (vm_compute; reflexivity).
  cbn [snd log] in Hin.
  apply list_elem_of_singleton in Hin. discriminate Hin.
Qed.

(** C8, amended: the command prompts if and only if no option key was
    supplied and no file or directory is at the target path (the existence
    check comes first); with any option key the mode is [cliMode], which
    does not prompt and binds [entities] to the [blank] preset whenever it
    returns. *)
Theorem mode_selection (H : host) (name : string) (options : obj)
    (files : gmap string node) :
  ((∃ qs, Prompt qs ∈ log (run H name options files).2) ↔
     Object_keys options = [] ∧ occupied files (projectPath H name) = false) ∧
  (Object_keys options ≠ [] →
     ∀ w, resolve_props H options w = cliMode options w ∧
          ∀ props w', cliMode options w = (Ret props, w') →
                      log w' = log w ∧
                      obj_get props "entities" = obj_get PRESETS "blank").
Proof.
  split.
  - destruct (run_cases H name options files)
      as [[Hocc ->]|[(Hfree & o' & Hkeys & _ & ->)
                    |[(Hfree & Hkeys & _ & ->)|(Hfree & Hkeys & ->)]]].
    + split; [|intros [_ ?]; congruence].
      intros [qs Hin]. by apply list_elem_of_singleton in Hin.
    + split; [|by intros [? _]].
      intros [qs Hin]. by apply list_elem_of_singleton in Hin.
    + split; [|by intros [? _]].
      intros [qs Hin].
      destruct (materialize_log H (projectPath H name)
                  (make_app name (cli_props options)) (World files []))
        as (evs & Hlog & Hnp & _).
      rewrite Hlog in Hin. cbn [log app] in Hin.
      rewrite Forall_forall in Hnp. by destruct (Hnp _ Hin qs).
    + split; [done|]. intros _. exists prompt_names.
      destruct (materialize_log H (projectPath H name)
                  (make_app name interactive_props)
                  (World files [Prompt prompt_names]))
        as (evs & -> & _).
      cbn [log]. apply elem_of_app. left. by apply list_elem_of_singleton.
  - intros Hkeys w. split.
    + rewrite resolve_props_eq. by destruct (Object_keys options).
    + intros props w' [-> ?]%cliMode_entities. done.
Qed.

(** ** A special node at the target path *)

Lemma materialize_taken (H : host) (p : string) (app : obj) (w : world)
    (n : node) :
  fs w !! p = Some n →
  materialize H p app w = (Reject (FsError "EEXIST" "mkdir" p), w).
Proof.
  intros Hn. unfold materialize, fs_mkdir. run_steps. by rewrite Hn.
Qed.

(** C10: when [stat] succeeds at the target path and reports neither a file
    nor a directory, [pathExists] returns [undefined], which is falsy, so the
    [already exists] branch is skipped: that message is never printed, and
    as soon as the options are resolved the creation of the directory is
    rejected with EEXIST, a rejection nothing handles. *)
Theorem special_node_slips_through (H : host) (name : string) (options : obj)
    (files : gmap string node) :
  files !! projectPath H name = Some Special →
  (∀ path w, fs w !! path = Some Special →
             pathExists path w = (Ret JUndefined, w)) ∧
  truthy JUndefined = false ∧
  run H name options files =
    match resolve_props H options (World files []) with
    | (Ret _, w) =>
        (Reject (FsError "EEXIST" "mkdir" (projectPath H name)), w)
    | (Exit code, w) => (Exit code, w)
    | (Reject f, w) => (Reject f, w)
    end ∧
  (∀ m, Stderr m ∈ log (run H name options files).2 →
        m ≠ Red (exists_message (projectPath H name))).
Proof.
  intros Hspecial.
  assert (Hrun : run H name options files =
    match resolve_props H options (World files []) with
    | (Ret _, w) =>
        (Reject (FsError "EEXIST" "mkdir" (projectPath H name)), w)
    | (Exit code, w) => (Exit code, w)
    | (Reject f, w) => (Reject f, w)
    end).
  { unfold run. rewrite action_eq. unfold occupied. cbn [fs log].
    rewrite Hspecial. unfold bind.
    pose proof (resolve_props_fs H options (World files [])) as Hfs.
    destruct (resolve_props H options (World files [])) as [[props| |] w];
      try done.
    cbn [snd fs] in Hfs. apply (materialize_taken _ _ _ _ Special).
    by rewrite Hfs. }
  split; [|split; [done|split; [exact Hrun|]]].
  - intros path w Hpath. by rewrite pathExists_eq, Hpath.
  - rewrite Hrun, resolve_props_eq.
    destruct (Object_keys options).
    + rewrite interactiveMode_eq. cbn [snd log fs app].
      by intros m ?%list_elem_of_singleton.
    + rewrite cliMode_eq. destruct (first_missing options) as [o|].
      * cbn [snd log fs app]. intros m [= ->]%list_elem_of_singleton Hm.
        apply (messages_differ (projectPath H name) o). congruence.
      * cbn [snd log]. by intros m ?%elem_of_nil.
Qed.

Lemma special_node_slips_through_demo :
  socket_files !! projectPath (demo_host (Archive "PK")) "shop" = Some Special ∧
  run (demo_host (Archive "PK")) "shop" demo_options socket_files =
    (Reject (FsError "EEXIST" "mkdir" "/home/dev/shop"), World socket_files []).
Proof.
  assert (Hs : socket_files !! projectPath (demo_host (Archive "PK")) "shop"
               = Some Special) by (vm_compute; reflexivity).
  split; [exact Hs|].
  destruct (special_node_slips_through (demo_host (Archive "PK")) "shop"
              demo_options socket_files Hs) as (_ & _ & -> & _).
  reflexivity.
Defined.

(** ** When the sidecar file is written *)

Lemma materialize_written (H : host) (p : string) (app : obj) (w : world)
    (q t : string) :
  (∀ q' t', WriteFile q' t' ∉ log w) →
  WriteFile q t ∈ log (materialize H p app w).2 →
  ∃ body fs3,
    server H (request app) = Archive body ∧
    JSON_stringify (JObject app) 2 = JString t ∧
    q = path_join H p ".flatlogicrc" ∧
    materialize H p app w =
      (Ret tt,
       World (<[q := File t]> (delete (TEMP_FILE H) fs3))
         (log w ++ success_log H p app body t)).
Proof.
  intros Hnone.
  destruct (materialize_cases H p app w)
    as (o & files' & evs & -> & [(-> & body & fs3 & text & ? & ? & _ & -> & ->)
                                |(_ & Hevs)]);
    cbn [snd log]; intros [Hin|Hin]%elem_of_app; try by destruct (Hnone q t).
  - unfold success_log in Hin.
    repeat (apply elem_of_cons in Hin as [Hin|Hin]; [try discriminate Hin|]);
      [|by apply elem_of_nil in Hin].
    injection Hin as -> ->. by exists body, fs3.
  - rewrite Forall_forall in Hevs. by specialize (Hevs _ Hin).
Qed.

Lemma run_written (H : host) (name : string) (options : obj)
    (files : gmap string node) (q t : string) :
  WriteFile q t ∈ log (run H name options files).2 →
  ∃ pre props body fs3,
    let app := make_app name props in
    ((Object_keys options = [] ∧ pre = [Prompt prompt_names] ∧
      props = interactive_props)
     ∨ (Object_keys options ≠ [] ∧ first_missing options = None ∧ pre = [] ∧
        props = cli_props options)) ∧
    server H (request app) = Archive body ∧
    JSON_stringify (JObject app) 2 = JString t ∧
    q = sidecar H name ∧
    run H name options files =
      (Ret tt,
       World (<[q := File t]> (delete (TEMP_FILE H) fs3))
         (pre ++ success_log H (projectPath H name) app body t)).
Proof.
  destruct (run_cases H name options files)
    as [[_ ->]|[(_ & o' & _ & _ & ->)
               |[(_ & Hkeys & Hmiss & ->)|(_ & Hkeys & ->)]]].
  - by intros ?%list_elem_of_singleton.
  - by intros ?%list_elem_of_singleton.
  - intros (body & fs3 & ? & ? & ? & Hrun)%materialize_written;
      [|by intros ?? ?%elem_of_nil].
    exists [], (cli_props options), body, fs3. cbn zeta.
    split; [right; done|]. by rewrite Hrun.
  - intros (body & fs3 & ? & ? & ? & Hrun)%materialize_written;
      [|by intros ?? ?%list_elem_of_singleton].
    exists [Prompt prompt_names], interactive_props, body, fs3. cbn zeta.
    split; [left; done|]. by rewrite Hrun.
Qed.

Lemma post_in_success_log (H : host) (p : string) (app : obj)
    (body t url : string) (json : jsval) (pre : list event) :
  Forall (λ e, before_sidecar e = false) pre →
  Post url json ∈ pre ++ success_log H p app body t →
  url = endpoint ∧ json = request app.
Proof.
  intros Hpre [Hin|Hin]%elem_of_app.
  - rewrite Forall_forall in Hpre. by specialize (Hpre _ Hin).
  - unfold success_log in Hin.
    repeat (apply elem_of_cons in Hin as [Hin|Hin]; [try discriminate Hin|]);
      [by injection Hin as -> ->|by apply elem_of_nil in Hin].
Qed.

(** C7: when the request has been sent and the service does not answer with
    an archive (a non-success status or a broken connection), the process
    ends with a non-zero status and no sidecar file is written; and in any
    run, a sidecar file is written only as the last step of a run in which
    the download, the extraction and the removal of the temporary file have
    all succeeded, in that order. *)
Theorem failed_download_writes_no_sidecar (H : host) (name : string)
    (options : obj) (files : gmap string node) :
  (∀ url json,
     Post url json ∈ log (run H name options files).2 →
     (∀ body, server H json ≠ Archive body) →
     exit_status (run H name options files).1 ≠ 0 ∧
     ∀ q t, WriteFile q t ∉ log (run H name options files).2) ∧
  (∀ q t,
     WriteFile q t ∈ log (run H name options files).2 →
     ∃ pre app body,
       server H (request app) = Archive body ∧
       (run H name options files).1 = Ret tt ∧
       log (run H name options files).2 =
         pre ++ [Mkdir (projectPath H name); Post endpoint (request app);
                 WriteStream (TEMP_FILE H) body;
                 Extract (TEMP_FILE H) (projectPath H name);
                 Rm (TEMP_FILE H); WriteFile q t]).
Proof.
  split.
  - intros url json Hpost Hdown.
    assert (Hnone : ∀ q t, WriteFile q t ∉ log (run H name options files).2).
    { intros q t (pre & props & body & fs3 & Hmode & Hserver & _ & _ & Hrun)
        %run_written.
      rewrite Hrun in Hpost. cbn [snd log] in Hpost.
      apply post_in_success_log in Hpost as [_ ->]; [by apply Hdown in Hserver|].
      destruct Hmode as [(_ & -> & _)|(_ & _ & -> & _)]; by repeat constructor. }
    split; [|exact Hnone].
    destruct (run_cases H name options files)
      as [[_ Hrun]|[(_ & o' & _ & _ & Hrun)
                   |[(_ & _ & _ & Hrun)|(_ & _ & Hrun)]]];
      rewrite Hrun in *; try done.
    all: match goal with
         | |- context [materialize ?H ?p ?a ?w] =>
             destruct (materialize_cases H p a w)
               as (o & files' & evs & Hm &
                   [(-> & body & ? & t & _ & _ & _ & _ & ->)|((f & ->) & _)])
         end; rewrite Hm in *; [|done].
    all: destruct (Hnone (path_join H (projectPath H name) ".flatlogicrc") t).
    all: cbn [snd log]; apply elem_of_app; right.
    all: apply list_elem_of_lookup; by exists 5.
  - intros q t (pre & props & body & fs3 & _ & Hserver & _ & -> & ->)
      %run_written.
    by exists pre, (make_app name props), body.
Qed.

Lemma failed_download_demo :
  Post endpoint (request (make_app "shop" (cli_props demo_options)))
    ∈ log (run (demo_host (Status 500)) "shop" demo_options demo_files).2 ∧
  exit_status (run (demo_host (Status 500)) "shop" demo_options demo_files).1
    = 1 ∧
  ∀ q t, WriteFile q t
           ∉ log (run (demo_host (Status 500)) "shop" demo_options demo_files).2.
Proof.
  assert (Hpost :
    Post endpoint (request (make_app "shop" (cli_props demo_options)))
      ∈ log (run (demo_host (Status 500)) "shop" demo_options demo_files).2).
  { apply list_elem_of_lookup. exists 1. vm_compute. reflexivity. }
  split; [exact Hpost|]. split; [vm_compute; reflexivity|].
  exact (proj2 (proj1 (failed_download_writes_no_sidecar
                         (demo_host (Status 500)) "shop" demo_options
                         demo_files) _ _ Hpost (λ body, ltac:(discriminate)))).
Defined.

(** C5: the text written to the sidecar file parses to the very
    [Application] that was sent as the [schema] member of the one request of
    the run: same keys, same order, same nested values.  The option values
    are what commander hands over (strings; any JSON values will do). *)
Theorem sidecar_round_trip (H : host) (name : string) (options : obj)
    (files : gmap string node) (q t : string) :
  forallb (λ m, json_safe m.2) options = true →
  WriteFile q t ∈ log (run H name options files).2 →
  ∃ app,
    Post endpoint (JObject [("schema", JObject app)])
      ∈ log (run H name options files).2 ∧
    (∀ url json, Post url json ∈ log (run H name options files).2 →
                 url = endpoint ∧ json = JObject [("schema", JObject app)]) ∧
    q = sidecar H name ∧
    JSON_parse t = Some (JObject app).
Proof.
  intros Hsafe
    (pre & props & body & fs3 & Hmode & _ & Htext & -> & ->)%run_written.
  exists (make_app name props). cbn [snd log].
  assert (Hpre : Forall (λ e, before_sidecar e = false) pre).
  { destruct Hmode as [(_ & -> & _)|(_ & _ & -> & _)]; by repeat constructor. }
  split; [|split; [|split; [done|]]].
  - apply elem_of_app. right. apply list_elem_of_lookup. by exists 1.
  - intros url json Hin. by apply post_in_success_log in Hin.
  - apply (JSON_round_trip _ 2); [|done].
    destruct Hmode as [(_ & _ & ->)|(_ & Hmiss & _ & ->)].
    + apply interactive_app_safe.
    + by apply cli_app_safe.
Qed.

Lemma demo_run_written :
  WriteFile "/home/dev/shop/.flatlogicrc" demo_text
    ∈ log (run (demo_host (Archive "PK")) "shop" demo_options demo_files).2.
Proof. apply list_elem_of_lookup. exists 5. vm_compute. reflexivity. Qed.

Lemma sidecar_round_trip_demo :
  forallb (λ m, json_safe m.2) demo_options = true ∧
  WriteFile "/home/dev/shop/.flatlogicrc" demo_text
    ∈ log (run (demo_host (Archive "PK")) "shop" demo_options demo_files).2 ∧
  JSON_parse demo_text = Some (JObject demo_app).
Proof.
  split; [reflexivity|]. split; [exact demo_run_written|].
  destruct (sidecar_round_trip (demo_host (Archive "PK")) "shop" demo_options
              demo_files _ _ eq_refl demo_run_written)
    as (app & Hpost & _ & _ & ->).
  apply list_elem_of_lookup in Hpost as [i Hpost].
  destruct i as [|[|[|[|[|[|i]]]]]]; vm_compute in Hpost;
    try discriminate Hpost.
  by injection Hpost as <-.
Defined.

Lemma flags_supplied (name : string) (options : obj) :
  (∀ k, k ∈ required → ∃ s, obj_get options k = JString s ∧ s ≠ "") →
  Object_keys options ≠ [] ∧ first_missing options = None ∧
  json_safe (JObject (("title", JString name) :: cli_props options)) = true.
Proof.
  intros Hall.
  destruct (Hall "frontend") as (s1 & H1 & Hs1); [set_solver|].
  destruct (Hall "backend") as (s2 & H2 & Hs2); [set_solver|].
  destruct (Hall "db") as (s3 & H3 & Hs3); [set_solver|].
  destruct (Hall "design") as (s4 & H4 & Hs4); [set_solver|].
  split; [by destruct options|]. split.
  - unfold first_missing, required. cbn [find].
    rewrite H1, H2, H3, H4. cbn [truthy].
    apply String.eqb_neq in Hs1, Hs2, Hs3, Hs4.
    by rewrite Hs1, Hs2, Hs3, Hs4.
  - unfold cli_props. cbn [json_safe forallb snd].
    by rewrite blank_safe, H1, H2, H3, H4.
Qed.

(** C4: with the four required flags supplied and nothing at the target
    path, a run whose steps all succeed (the parent directory is there, the
    temporary file can be written, the service answers with an archive, the
    archive extracts and stays in place, the sidecar can be written) creates
    the target directory, removes the temporary file before it writes the
    sidecar, which leaves no temporary file behind, and the sidecar parses
    to an object whose [title] is the supplied name and whose [entities] is
    the [blank] preset. *)
Theorem generate_success (H : host) (name : string) (options : obj)
    (files fs3 : gmap string node) (body c : string) :
  (∀ k, k ∈ required → ∃ s, obj_get options k = JString s ∧ s ≠ "") →
  files !! projectPath H name = None →
  files !! path_dirname H (projectPath H name) = Some Dir →
  open_error H (TEMP_FILE H) (<[projectPath H name := Dir]> files) = None →
  server H (request (("title", JString name) :: cli_props options))
    = Archive body →
  extract_zip H body (projectPath H name)
    (<[TEMP_FILE H := File body]> (<[projectPath H name := Dir]> files))
    = Some fs3 →
  fs3 !! TEMP_FILE H = Some (File c) →
  open_error H (sidecar H name) (delete (TEMP_FILE H) fs3) = None →
  ∃ text parsed,
    run H name options files =
      (Ret tt,
       World (<[sidecar H name := File text]> (delete (TEMP_FILE H) fs3))
         [Mkdir (projectPath H name);
          Post endpoint (request (("title", JString name) :: cli_props options));
          WriteStream (TEMP_FILE H) body;
          Extract (TEMP_FILE H) (projectPath H name);
          Rm (TEMP_FILE H);
          WriteFile (sidecar H name) text]) ∧
    delete (TEMP_FILE H) fs3 !! TEMP_FILE H = None ∧
    (sidecar H name ≠ TEMP_FILE H →
     (run H name options files).2.(fs) !! TEMP_FILE H = None) ∧
    (run H name options files).2.(fs) !! sidecar H name = Some (File text) ∧
    JSON_parse text = Some (JObject parsed) ∧
    obj_get parsed "title" = JString name ∧
    obj_get parsed "entities" = obj_get PRESETS "blank".
Proof.
  intros Hflags Hfree Hparent Htmp Hserver Hx Hzip Hside.
  destruct (flags_supplied name options Hflags) as (Hkeys & Hmiss & Hsafe).
  destruct (stringify_object (("title", JString name) :: cli_props options) 2)
    as [text Htext].
  assert (Hrun : run H name options files =
      (Ret tt,
       World (<[sidecar H name := File text]> (delete (TEMP_FILE H) fs3))
         (success_log H (projectPath H name)
            (("title", JString name) :: cli_props options) body text))).
  { destruct (run_cases H name options files)
      as [[Hocc _]|[(_ & o' & _ & ? & _)
                   |[(_ & _ & _ & ->)|(_ & ? & _)]]]; try congruence.
    - unfold occupied in Hocc. by rewrite Hfree in Hocc.
    - rewrite make_app_cli. by erewrite materialize_ok. }
  exists text, (("title", JString name) :: cli_props options).
  rewrite Hrun. cbn [snd fs].
  split; [done|]. split; [apply lookup_delete_eq|].
  split; [intros Hne; by rewrite lookup_insert_ne, lookup_delete_eq|].
  split; [apply lookup_insert_eq|].
  split; [|done].
  by apply (JSON_round_trip _ 2).
Qed.

Lemma demo_flags :
  ∀ k, k ∈ required → ∃ s, obj_get demo_options k = JString s ∧ s ≠ "".
Proof.
  intros k Hk. unfold required in Hk.
  repeat (apply elem_of_cons in Hk as [->|Hk];
          [eexists; split; [reflexivity|discriminate]|]).
  by apply elem_of_nil in Hk.
Defined.

Lemma generate_success_demo :
  ∃ text parsed,
    run (demo_host (Archive "PK")) "shop" demo_options demo_files =
      (Ret tt,
       World (<["/home/dev/shop/.flatlogicrc" := File text]>
                (delete "/tmp/flatlogic.zip" demo_unzipped))
         [Mkdir "/home/dev/shop";
          Post endpoint (request demo_app);
          WriteStream "/tmp/flatlogic.zip" "PK";
          Extract "/tmp/flatlogic.zip" "/home/dev/shop";
          Rm "/tmp/flatlogic.zip";
          WriteFile "/home/dev/shop/.flatlogicrc" text]) ∧
    JSON_parse text = Some (JObject parsed) ∧
    obj_get parsed "title" = JString "shop" ∧
    obj_get parsed "entities" = obj_get PRESETS "blank".
Proof.
  destruct (generate_success (demo_host (Archive "PK")) "shop" demo_options
              demo_files demo_unzipped "PK" "PK" demo_flags)
    as (text & parsed & Hrun & _ & _ & _ & Hparse & Htitle & Hents);
    try (vm_compute; reflexivity).
  by exists text, parsed.
Defined.

(** C3 fails in interactive mode: the [Application] written to the sidecar
    file there has a seventh key, [schemaPreset], which the spread of the
    prompt answers carries over. *)
Theorem interactive_sidecar_keys (H : host) (name : string)
    (files : gmap string node) (q t : string) :
  WriteFile q t ∈ log (run H name [] files).2 →
  ∃ app,
    JSON_parse t = Some (JObject app) ∧
    Object_keys app =
      ["title"; "frontend"; "backend"; "db"; "design"; "schemaPreset";
       "entities"].
Proof.
  intros (pre & props & body & fs3 & Hmode & _ & Htext & _ & _)%run_written.
  destruct Hmode as [(_ & _ & ->)|(Hkeys & _)]; [|done].
  exists (make_app name interactive_props). split; [|reflexivity].
  apply (JSON_round_trip _ 2); [apply interactive_app_safe|done].
Qed.

(** In non-interactive mode the keys are the six of the [Application]
    interface. *)
Lemma cli_sidecar_keys (H : host) (name : string) (options : obj)
    (files : gmap string node) (q t : string) :
  Object_keys options ≠ [] →
  forallb (λ m, json_safe m.2) options = true →
  WriteFile q t ∈ log (run H name options files).2 →
  ∃ app,
    JSON_parse t = Some (JObject app) ∧
    Object_keys app = ["title"; "frontend"; "backend"; "db"; "design"; "entities"].
Proof.
  intros Hkeys Hsafe
    (pre & props & body & fs3 & Hmode & _ & Htext & _ & _)%run_written.
  destruct Hmode as [(Hnil & _)|(_ & Hmiss & _ & ->)]; [done|].
  exists (make_app name (cli_props options)). split; [|reflexivity].
  apply (JSON_round_trip _ 2); [by apply cli_app_safe|done].
Qed.

Lemma interactive_sidecar_keys_demo :
  WriteFile "/home/dev/shop/.flatlogicrc" demo_interactive_text
    ∈ log (run (demo_host (Archive "PK")) "shop" [] demo_files).2 ∧
  ∃ app,
    JSON_parse demo_interactive_text = Some (JObject app) ∧
    obj_get app "schemaPreset" = JString "blank".
Proof.
  assert (Hin : WriteFile "/home/dev/shop/.flatlogicrc" demo_interactive_text
    ∈ log (run (demo_host (Archive "PK")) "shop" [] demo_files).2).
  { apply list_elem_of_lookup. exists 6. vm_compute. reflexivity. }
  split; [exact Hin|].
  destruct (interactive_sidecar_keys _ _ _ _ _ Hin) as (app & Hparse & Hkeys).
  exists app. split; [exact Hparse|].
  vm_compute in Hparse. by injection Hparse as <-.
Defined.

(** ** The stages of a run *)


Ltac ends_step :=
  eexists _, _, _; split;
  [first [rewrite <- ?app_assoc; cbn [Datatypes.app]; reflexivity
         |rewrite app_nil_r; reflexivity]|].

Lemma materialize_ends (H : host) (p : string) (app : obj) (w : world) :
  ∃ o files' evs,
    materialize H p app w = (o, World files' (log w ++ evs)) ∧
    ends H p app (fs w) o files' evs.
Proof.
  destruct w as [f l].
  destruct (stringify_object app 2) as [text Htext].
  unfold materialize. rewrite Htext.
  unfold fs_mkdir, pipeline, extract, rm, fs_writeFile. run_steps.
  destruct (f !! p) as [n|] eqn:Hp; cbn [fs log].
  { ends_step. by eapply ends_exists. }
  destruct (f !! path_dirname H p) as [[]|] eqn:Hparent; cbn [fs log].
  1, 3, 4: ends_step; apply ends_parent; [done|]; eauto 8.
  destruct (open_error H (TEMP_FILE H) (<[p:=Dir]> f)) as [e|] eqn:Hopen;
    cbn [fs log].
  { ends_step. by apply ends_open. }
  destruct (server H (request app)) as [body|code|part] eqn:Hserver;
    cbn [fs log].
  2: { ends_step. by apply ends_status. }
  2: { ends_step. by apply ends_broken. }
  rewrite lookup_insert_eq.
  destruct (extract_zip H body p _) as [f3|] eqn:Hx; cbn [fs log].
  2: { ends_step. by apply ends_extract. }
  destruct (f3 !! TEMP_FILE H) as [n|] eqn:Hzip; cbn [fs log].
  2: { ends_step. eapply ends_rm; eauto. }
  destruct n; cbn [fs log].
  2: { ends_step. eapply ends_rm; eauto. }
  all: destruct (open_error H _ (delete _ f3)) as [e|] eqn:Hside; cbn [fs log].
  all: ends_step.
  all: first [by eapply ends_write|by eapply ends_done].
Qed.

Lemma run_ends (H : host) (name : string) (options : obj)
    (files : gmap string node) :
  (occupied files (projectPath H name) = true ∧
   run H name options files =
     (Exit 1, World files [Stderr (Red (exists_message (projectPath H name)))]))
  ∨ (occupied files (projectPath H name) = false ∧
     ∃ m, Object_keys options ≠ [] ∧ first_missing options = Some m ∧
          run H name options files =
            (Exit 1, World files [Stderr (Red (required_message m))]))
  ∨ (occupied files (projectPath H name) = false ∧
     ∃ pre props o files' evs,
       ((Object_keys options = [] ∧ pre = [Prompt prompt_names] ∧
         props = interactive_props)
        ∨ (Object_keys options ≠ [] ∧ first_missing options = None ∧
           pre = [] ∧ props = cli_props options)) ∧
       run H name options files = (o, World files' (pre ++ evs)) ∧
       ends H (projectPath H name) (("title", JString name) :: props) files
         o files' evs).
Proof.
  destruct (run_cases H name options files)
    as [Hocc|[Hmiss|[(Hfree & Hkeys & Hnone & ->)|(Hfree & Hkeys & ->)]]];
    [by left|by right; left|right; right..]; (split; [done|]).
  - destruct (materialize_ends H (projectPath H name)
                (make_app name (cli_props options)) (World files []))
      as (o & files' & evs & -> & Hends).
    exists [], (cli_props options), o, files', evs. split; [by right|].
    by rewrite <- make_app_cli.
  - destruct (materialize_ends H (projectPath H name)
                (make_app name interactive_props)
                (World files [Prompt prompt_names]))
      as (o & files' & evs & -> & Hends).
    exists [Prompt prompt_names], interactive_props, o, files', evs.
    split; [by left|]. by rewrite <- make_app_interactive.
Qed.


Lemma open_error_dir (H : host) (q : string) (f : gmap string node) :
  f !! q = Some Dir → open_error H q f = Some (FsError "EISDIR" "open" q).
Proof. intros Hq. unfold open_error. by rewrite Hq. Qed.

(** The temporary file is not the target directory once the download has
    started. *)
Lemma open_temp_ne (H : host) (p : string) (f : gmap string node) :
  open_error H (TEMP_FILE H) (<[p := Dir]> f) = None → p ≠ TEMP_FILE H.
Proof.
  intros Hopen ->. by rewrite open_error_dir in Hopen by apply lookup_insert_eq.
Qed.

(** ** What every run does, and what it leaves *)


(** X1: the effects of a run come in one fixed order.  After at most one
    line on stderr or one prompt, the events are an initial part of: create
    the directory, send the request, write the temporary file, extract,
    remove the temporary file, write the sidecar; a step happens only when
    all the steps before it have happened. *)
Theorem effects_in_order (H : host) (name : string) (options : obj)
    (files : gmap string node) :
  ∃ pre evs app d t,
    log (run H name options files).2 = pre ++ evs ∧
    (pre = [] ∨ (∃ m, pre = [Stderr m] ∧ evs = []) ∨ pre = [Prompt prompt_names]) ∧
    evs `prefix_of` success_log H (projectPath H name) app d t.
Proof.
  destruct (run_ends H name options files)
    as [[_ ->]|[(_ & m & _ & _ & ->)
               |(_ & pre & props & o & files' & evs & Hmode & -> & Hends)]].
  - exists [Stderr (Red (exists_message (projectPath H name)))], [], [], "", "".
    split; [done|]. split; [right; left; eauto|apply prefix_nil].
  - exists [Stderr (Red (required_message m))], [], [], "", "".
    split; [done|]. split; [right; left; eauto|apply prefix_nil].
  - assert (Hpre : pre = [] ∨ (∃ m, pre = [Stderr m] ∧ evs = [])
                   ∨ pre = [Prompt prompt_names]).
    { destruct Hmode as [(_ & -> & _)|(_ & _ & -> & _)]; auto. }
    cbn [snd log].
    destruct Hends.
    1, 2: exists pre, [], [], "", ""; split_and!; [done..|apply prefix_nil].
    1: eexists pre, _, _, "", ""; split_and!; [done..|by eexists [_; _; _; _]].
    1: eexists pre, _, _, "", ""; split_and!; [done..|by eexists [_; _; _]].
    1: eexists pre, _, _, received, ""; split_and!;
         [done..|by eexists [_; _; _]].
    1: eexists pre, _, _, body, ""; split_and!; [done..|by eexists [_; _; _]].
    1: eexists pre, _, _, body, ""; split_and!; [done..|by eexists [_; _]].
    1: eexists pre, _, _, body, ""; split_and!; [done..|by eexists [_]].
    eexists pre, _, _, body, text; split_and!; [done..|by eexists []].
Qed.

Ltac in_list H :=
  repeat (apply elem_of_cons in H as [H|H]; [try discriminate H|]);
  try (by apply elem_of_nil in H).

Lemma post_position (H : host) (name : string) (options : obj)
    (files : gmap string node) (i : nat) (url : string) (json : jsval) :
  log (run H name options files).2 !! i = Some (Post url json) →
  ∃ props,
    ((Object_keys options = [] ∧ props = interactive_props ∧ i = 2)
     ∨ (Object_keys options ≠ [] ∧ first_missing options = None ∧
        props = cli_props options ∧ i = 1)) ∧
    url = endpoint ∧
    json = request (("title", JString name) :: props).
Proof.
  destruct (run_ends H name options files)
    as [[_ ->]|[(_ & m & _ & _ & ->)
               |(_ & pre & props & o & files' & evs & Hmode & -> & Hends)]];
    cbn [snd log].
  1, 2: by destruct i as [|[|i]].
  intros Hi. exists props.
  assert (Hlen : length pre ≤ 1)
    by (destruct Hmode as [(_ & -> & _)|(_ & _ & -> & _)]; cbn; lia).
  destruct (decide (i < length pre)) as [Hlt|Hge].
  { rewrite lookup_app_l in Hi by done.
    destruct Hmode as [(_ & -> & _)|(_ & _ & -> & _)];
      by destruct i as [|[|i]]. }
  rewrite lookup_app_r in Hi by lia.
  assert (i = length pre + (i - length pre)) as Hsum by lia.
  destruct (i - length pre) as [|[|k]] eqn:Hk.
  - destruct Hends; discriminate Hi.
  - assert (url = endpoint ∧ json = request (("title", JString name) :: props))
      as [-> ->]
      by (destruct Hends; try discriminate Hi; by injection Hi as <- <-).
    split; [|done].
    destruct Hmode as [(? & -> & ?)|(? & ? & -> & ?)]; cbn in Hsum;
      [left|right]; split_and!; try done; lia.
  - exfalso. unfold success_log in *.
    destruct Hends; try discriminate Hi;
      repeat (destruct k as [|k]; try discriminate Hi).
Qed.

(** X2: a run sends at most one request (nothing is retried), always to the
    generation endpoint, and its body is [{schema: {title: name, ...props}}]
    with the props of the mode: the prompt answers, or the flag values as
    they were typed, not checked against the choices the prompts offer. *)
Theorem single_request (H : host) (name : string) (options : obj)
    (files : gmap string node) :
  (∀ url json,
     Post url json ∈ log (run H name options files).2 →
     url = endpoint ∧
     ∃ props,
       json = request (("title", JString name) :: props) ∧
       ((Object_keys options = [] ∧ props = interactive_props)
        ∨ (Object_keys options ≠ [] ∧ first_missing options = None ∧
           props = cli_props options))) ∧
  (∀ i j url json url' json',
     log (run H name options files).2 !! i = Some (Post url json) →
     log (run H name options files).2 !! j = Some (Post url' json') →
     i = j).
Proof.
  split.
  - intros url json [i Hi]%list_elem_of_lookup.
    apply post_position in Hi as (props & Hmode & -> & ->).
    split; [done|]. exists props. split; [done|].
    destruct Hmode as [(? & ? & _)|(? & ? & ? & _)]; auto.
  - intros i j url json url' json' Hi Hj.
    apply post_position in Hi as (? & Hi & _).
    apply post_position in Hj as (? & Hj & _).
    destruct Hi as [(? & _ & ->)|(? & _ & _ & ->)],
             Hj as [(? & _ & ->)|(? & _ & _ & ->)]; congruence.
Qed.

(** X3: the exit status is 0 exactly when the sidecar file was written, and
    it is never more than 1; the only file the action writes with
    [fs.writeFile] is the sidecar, which then holds the text written, whatever
    the archive had put at that path. *)
Theorem success_iff_sidecar (H : host) (name : string) (options : obj)
    (files : gmap string node) :
  (exit_status (run H name options files).1 = 0 ↔
   ∃ t, WriteFile (sidecar H name) t ∈ log (run H name options files).2) ∧
  (∀ q t, WriteFile q t ∈ log (run H name options files).2 →
          q = sidecar H name ∧
          (run H name options files).2.(fs) !! q = Some (File t)) ∧
  exit_status (run H name options files).1 ≤ 1.
Proof.
  destruct (run_ends H name options files)
    as [[_ ->]|[(_ & m & _ & _ & ->)
               |(_ & pre & props & o & files' & evs & Hmode & -> & Hends)]];
    cbn [fst snd log fs exit_status].
  1, 2: split_and!; [|by intros ?? ?%list_elem_of_singleton|lia];
        split; [done|]; by intros [t ?%list_elem_of_singleton].
  assert (Hpre : ∀ q t, WriteFile q t ∉ pre).
  { intros q t Hin. destruct Hmode as [(_ & -> & _)|(_ & _ & -> & _)];
      in_list Hin. }
  destruct Hends; cbn [exit_status].
  1-8: split_and!; [|intros q t [Hin|Hin]%elem_of_app;
                      [by destruct (Hpre q t)|in_list Hin]|lia];
       split; [done|];
       intros [t [Hin|Hin]%elem_of_app];
       [by destruct (Hpre (sidecar H name) t)|in_list Hin].
  split_and!; [|intros q t' [Hin|Hin]%elem_of_app|lia].
  - split; [intros _|done]. exists text. apply elem_of_app. right.
    apply list_elem_of_lookup. by exists 5.
  - by destruct (Hpre q t').
  - unfold success_log in Hin. in_list Hin. injection Hin as -> ->.
    split; [done|]. apply lookup_insert_eq.
Qed.

(** X4: [process.exit] is only ever called with status 1, and only before
    anything is created or sent: the files are untouched and the one thing
    the run did is print one red line. *)
Theorem usage_errors_are_clean (H : host) (name : string) (options : obj)
    (files : gmap string node) (code : nat) :
  (run H name options files).1 = Exit code →
  code = 1 ∧
  (run H name options files).2.(fs) = files ∧
  ∃ m, log (run H name options files).2 = [Stderr (Red m)].
Proof.
  destruct (run_ends H name options files)
    as [[_ ->]|[(_ & m & _ & _ & ->)
               |(_ & pre & props & o & files' & evs & Hmode & -> & Hends)]];
    cbn [fst snd log fs].
  1, 2: intros [= <-]; eauto.
  intros ->. inversion Hends.
Qed.

Lemma left_behind (H : host) (p d : string) (f : gmap string node) :
  open_error H (TEMP_FILE H) (<[p := Dir]> f) = None →
  <[TEMP_FILE H := File d]> (<[p := Dir]> f) !! p = Some Dir ∧
  <[TEMP_FILE H := File d]> (<[p := Dir]> f) !! TEMP_FILE H = Some (File d).
Proof.
  intros Hne%open_temp_ne. split; [|apply lookup_insert_eq].
  by rewrite lookup_insert_ne, lookup_insert_eq.
Qed.


Lemma occupied_dir (files : gmap string node) (p : string) :
  files !! p = Some Dir → occupied files p = true.
Proof. intros Hp. unfold occupied. by rewrite Hp. Qed.

(** X6: a run that created the directory and did not get to the extraction
    blocks its own retry: the same command on the files it left, with any
    options and even against a service that answers now, exits with status 1
    on the [already exists] check. *)
Theorem retry_is_blocked (H H' : host) (name : string) (options options' : obj)
    (files : gmap string node) :
  (∃ d, Mkdir d ∈ log (run H name options files).2) →
  (∀ z d, Extract z d ∉ log (run H name options files).2) →
  projectPath H' name = projectPath H name →
  (run H name options files).2.(fs) !! projectPath H name = Some Dir ∧
  run H' name options' (run H name options files).2.(fs) =
    (Exit 1,
     World (run H name options files).2.(fs)
       [Stderr (Red (exists_message (projectPath H name)))]).
Proof.
  intros [d Hmk] Hnx Hsame.
  assert (Hdir : (run H name options files).2.(fs) !! projectPath H name
                 = Some Dir).
  2: { split; [done|]. rewrite <- Hsame.
       apply run_occupied, occupied_dir. by rewrite Hsame. }
  revert Hmk Hnx.
  destruct (run_ends H name options files)
    as [[_ ->]|[(_ & m & _ & _ & ->)
               |(_ & pre & props & o & files' & evs & Hmode & -> & Hends)]];
    cbn [fst snd log fs].
  1, 2: by intros ?%list_elem_of_singleton.
  intros Hmk Hnx.
  assert (Hpre : ∀ e, e ∈ pre → e = Prompt prompt_names).
  { intros e He. destruct Hmode as [(_ & -> & _)|(_ & _ & -> & _)]; in_list He.
    done. }
  destruct Hends.
  1, 2: rewrite app_nil_r in Hmk; by apply Hpre in Hmk.
  - apply lookup_insert_eq.
  - by apply left_behind.
  - by apply left_behind.
  - by apply left_behind.
  - destruct (Hnx (TEMP_FILE H) (projectPath H name)).
    apply elem_of_app. right. apply list_elem_of_lookup. by exists 3.
  - destruct (Hnx (TEMP_FILE H) (projectPath H name)).
    apply elem_of_app. right. apply list_elem_of_lookup. by exists 3.
  - destruct (Hnx (TEMP_FILE H) (projectPath H name)).
    apply elem_of_app. right. apply list_elem_of_lookup. by exists 3.
Qed.

(** X7: as long as nothing is extracted, a run changes no path other than
    the target directory and the temporary file. *)
Theorem other_files_untouched (H : host) (name : string) (options : obj)
    (files : gmap string node) (path : string) :
  (∀ z d, Extract z d ∉ log (run H name options files).2) →
  path ≠ projectPath H name →
  path ≠ TEMP_FILE H →
  (run H name options files).2.(fs) !! path = files !! path.
Proof.
  destruct (run_ends H name options files)
    as [[_ ->]|[(_ & m & _ & _ & ->)
               |(_ & pre & props & o & files' & evs & Hmode & -> & Hends)]];
    cbn [fst snd log fs]; [done..|].
  intros Hnx Hp Ht.
  destruct Hends; try done.
  1-4: by rewrite ?lookup_insert_ne by done.
  all: destruct (Hnx (TEMP_FILE H) (projectPath H name)).
  all: apply elem_of_app; right; apply list_elem_of_lookup; by exists 3.
Qed.

(** X8: when the target path is the path of the temporary file (the project
    [flatlogic.zip] generated in the temporary directory), no run succeeds:
    the directory that was just created is in the way of the download, so
    nothing is written to the temporary file, extracted or recorded. *)
Theorem temp_name_clash (H : host) (name : string) (options : obj)
    (files : gmap string node) :
  projectPath H name = TEMP_FILE H →
  exit_status (run H name options files).1 = 1 ∧
  (∀ q d, WriteStream q d ∉ log (run H name options files).2) ∧
  (∀ z d, Extract z d ∉ log (run H name options files).2) ∧
  (∀ q t, WriteFile q t ∉ log (run H name options files).2).
Proof.
  intros Hclash.
  destruct (run_ends H name options files)
    as [[_ ->]|[(_ & m & _ & _ & ->)
               |(_ & pre & props & o & files' & evs & Hmode & -> & Hends)]];
    cbn [fst snd log fs exit_status].
  1, 2: split_and!; [done|by intros ?? ?%list_elem_of_singleton..].
  assert (Hpre : ∀ e, e ∈ pre → e = Prompt prompt_names).
  { intros e He. destruct Hmode as [(_ & -> & _)|(_ & _ & -> & _)]; in_list He.
    done. }
  destruct Hends;
    try match goal with
        | Ho : open_error _ _ _ = None |- _ =>
            by apply open_temp_ne in Ho
        end.
  all: split_and!; [done|intros ?? [Hin|Hin]%elem_of_app..];
    try (by apply Hpre in Hin); in_list Hin.
Qed.

(** X9: in non-interactive mode a run depends on the option bag only through
    the values of the four required keys: their order and any other key
    change nothing. *)
Theorem only_required_options_matter (H : host) (name : string)
    (options options' : obj) (files : gmap string node) :
  Object_keys options ≠ [] →
  Object_keys options' ≠ [] →
  (∀ k, k ∈ required → obj_get options k = obj_get options' k) →
  run H name options files = run H name options' files.
Proof.
  intros Hkeys Hkeys' Hsame.
  assert (H1 := Hsame "frontend" ltac:(set_solver)).
  assert (H2 := Hsame "backend" ltac:(set_solver)).
  assert (H3 := Hsame "db" ltac:(set_solver)).
  assert (H4 := Hsame "design" ltac:(set_solver)).
  unfold run. rewrite !action_eq. cbn [fs log].
  destruct (occupied files (projectPath H name)); [done|].
  unfold bind. rewrite !resolve_props_eq.
  destruct (Object_keys options) as [|? ?]; [done|].
  destruct (Object_keys options') as [|? ?]; [done|].
  rewrite !cliMode_eq. unfold first_missing, cli_props, required. cbn [find].
  by rewrite H1, H2, H3, H4.
Qed.

(** X10: whoever is at the terminal, interactive mode resolves to what the
    flags react, nodejs, postgresql, classic resolve to, plus the
    [schemaPreset] answer; the prompt is its only effect. *)
Theorem interactive_equals_default_flags (H : host) (w : world) :
  ∃ props,
    resolve_props H [] w =
      (Ret props, World (fs w) (log w ++ [Prompt prompt_names])) ∧
    resolve_props H
      [("frontend", JString "react"); ("backend", JString "nodejs");
       ("db", JString "postgresql"); ("design", JString "classic")] w =
      (Ret (filter (λ m, m.1 ≠ "schemaPreset") props), w).
Proof.
  exists interactive_props. split.
  - by rewrite resolve_props_eq, interactiveMode_eq.
  - rewrite resolve_props_eq, cliMode_eq. reflexivity.
Qed.


(** X12: whatever the mode, every request carries the project name as
    [title], the [blank] preset as [entities], and a truthy value (never an
    absent or empty one) for each of frontend, backend, db and design. *)
Theorem request_is_complete (H : host) (name : string) (options : obj)
    (files : gmap string node) (url : string) (json : jsval) :
  Post url json ∈ log (run H name options files).2 →
  ∃ app,
    json = JObject [("schema", JObject app)] ∧
    obj_get app "title" = JString name ∧
    obj_get app "entities" = obj_get PRESETS "blank" ∧
    ∀ k, k ∈ required → truthy (obj_get app k) = true.
Proof.
  intros [i Hi]%list_elem_of_lookup.
  apply post_position in Hi
    as (props & [(_ & -> & _)|(_ & Hmiss & -> & _)] & _ & ->);
    eexists; (split; [reflexivity|]); (split; [reflexivity|]);
    (split; [reflexivity|]).
  - intros k Hk. unfold required in Hk. in_list Hk; by subst.
  - apply first_missing_none in Hmiss. rewrite Forall_forall in Hmiss.
    intros k Hk. specialize (Hmiss k Hk).
    unfold required in Hk. in_list Hk; by subst.
Qed.

(** X13: after a successful run the files are exactly what the extraction
    produced from the downloaded archive, without the temporary file and
    with the sidecar: the action adds and removes nothing else. *)
Theorem success_final_files (H : host) (name : string) (options : obj)
    (files : gmap string node) :
  (run H name options files).1 = Ret tt →
  ∃ app body f3 text,
    server H (request app) = Archive body ∧
    extract_zip H body (projectPath H name)
      (<[TEMP_FILE H := File body]> (<[projectPath H name := Dir]> files))
      = Some f3 ∧
    JSON_stringify (JObject app) 2 = JString text ∧
    (run H name options files).2.(fs) =
      <[sidecar H name := File text]> (delete (TEMP_FILE H) f3) ∧
    ∀ path, path ≠ sidecar H name →
            (run H name options files).2.(fs) !! path =
              if decide (path = TEMP_FILE H) then None else f3 !! path.
Proof.
  destruct (run_ends H name options files)
    as [[_ ->]|[(_ & m & _ & _ & ->)
               |(_ & pre & props & o & files' & evs & Hmode & -> & Hends)]];
    cbn [fst snd log fs]; [done..|].
  intros Hret. destruct Hends; try discriminate Hret.
  eexists _, body, f3, text. split_and!; [done..|].
  intros path Hpath. unfold sidecar in Hpath.
  rewrite lookup_insert_ne by done.
  case_decide as Ht; [subst; apply lookup_delete_eq|by apply lookup_delete_ne].
Qed.

(** ** Runs on the machine of the demonstration *)


Lemma failed_demo_run :
  run (demo_host (Status 500)) "shop" demo_options demo_files =
    (Reject (HTTPError 500),
     World demo_leftover
       [Mkdir "/home/dev/shop"; Post endpoint (request demo_app);
        WriteStream "/tmp/flatlogic.zip" ""]).
Proof. vm_compute. reflexivity. Qed.

Lemma failed_demo_no_extract (z d : string) :
  Extract z d
    ∉ log (run (demo_host (Status 500)) "shop" demo_options demo_files).2.
Proof. rewrite failed_demo_run. cbn [snd log]. intros Hin. in_list Hin. Qed.

Lemma usage_errors_are_clean_demo :
  (run (demo_host (Archive "PK")) "shop" demo_options taken_files).1 = Exit 1 ∧
  (run (demo_host (Archive "PK")) "shop" demo_options taken_files).2.(fs)
    = taken_files.
Proof.
  assert (Hexit : (run (demo_host (Archive "PK")) "shop" demo_options
                     taken_files).1 = Exit 1) by (vm_compute; reflexivity).
  split; [exact Hexit|].
  exact (proj1 (proj2 (usage_errors_are_clean _ _ _ _ _ Hexit))).
Defined.


Lemma retry_is_blocked_demo :
  Mkdir "/home/dev/shop"
    ∈ log (run (demo_host (Status 500)) "shop" demo_options demo_files).2 ∧
  run (demo_host (Archive "PK")) "shop" demo_options demo_leftover =
    (Exit 1,
     World demo_leftover
       [Stderr (Red "error: folder /home/dev/shop already exists")]).
Proof.
  assert (Hmk : Mkdir "/home/dev/shop"
    ∈ log (run (demo_host (Status 500)) "shop" demo_options demo_files).2)
    by (rewrite failed_demo_run; apply list_elem_of_lookup; by exists 0).
  split; [exact Hmk|].
  destruct (retry_is_blocked (demo_host (Status 500))
              (demo_host (Archive "PK")) "shop" demo_options
              demo_options demo_files
              (ex_intro (λ d, Mkdir d ∈ _) "/home/dev/shop" Hmk)
              failed_demo_no_extract eq_refl) as [_ Hrun].
  rewrite failed_demo_run in Hrun. exact Hrun.
Defined.

Lemma other_files_untouched_demo :
  "/home/dev" ≠ projectPath (demo_host (Status 500)) "shop" ∧
  "/home/dev" ≠ TEMP_FILE (demo_host (Status 500)) ∧
  (run (demo_host (Status 500)) "shop" demo_options demo_files).2.(fs)
    !! "/home/dev" = Some Dir.
Proof.
  assert (Hp : "/home/dev" ≠ projectPath (demo_host (Status 500)) "shop")
    by discriminate.
  assert (Ht : "/home/dev" ≠ TEMP_FILE (demo_host (Status 500)))
    by discriminate.
  split; [exact Hp|]. split; [exact Ht|].
  rewrite (other_files_untouched (demo_host (Status 500)) "shop" demo_options
             demo_files "/home/dev" failed_demo_no_extract Hp Ht).
  reflexivity.
Defined.

Lemma temp_name_clash_demo :
  projectPath (tmp_host (Archive "PK")) "flatlogic.zip"
    = TEMP_FILE (tmp_host (Archive "PK")) ∧
  run (tmp_host (Archive "PK")) "flatlogic.zip" demo_options demo_files =
    (Reject (FsError "EISDIR" "open" "/tmp/flatlogic.zip"),
     World (<["/tmp/flatlogic.zip" := Dir]> demo_files)
       [Mkdir "/tmp/flatlogic.zip";
        Post endpoint (request (make_app "flatlogic.zip" (cli_props demo_options)))]) ∧
  exit_status
    (run (tmp_host (Archive "PK")) "flatlogic.zip" demo_options demo_files).1
    = 1.
Proof.
  split; [reflexivity|]. split; [vm_compute; reflexivity|].
  exact (proj1 (temp_name_clash (tmp_host (Archive "PK")) "flatlogic.zip"
                  demo_options demo_files eq_refl)).
Defined.

Lemma shuffled_same (k : string) :
  k ∈ required → obj_get demo_options k = obj_get shuffled_options k.
Proof. intros Hk. unfold required in Hk. in_list Hk; by subst. Qed.

Lemma only_required_options_matter_demo :
  Object_keys demo_options ≠ [] ∧ Object_keys shuffled_options ≠ [] ∧
  run (demo_host (Archive "PK")) "shop" demo_options demo_files =
    run (demo_host (Archive "PK")) "shop" shuffled_options demo_files.
Proof.
  split; [discriminate|]. split; [discriminate|].
  apply only_required_options_matter; [discriminate..|exact shuffled_same].
Defined.

Lemma demo_run_posted :
  Post endpoint (request demo_app)
    ∈ log (run (demo_host (Archive "PK")) "shop" demo_options demo_files).2.
Proof. apply list_elem_of_lookup. exists 1. vm_compute. reflexivity. Qed.

Lemma request_is_complete_demo :
  Post endpoint (request demo_app)
    ∈ log (run (demo_host (Archive "PK")) "shop" demo_options demo_files).2 ∧
  obj_get demo_app "frontend" = JString "react" ∧
  ∃ app, request demo_app = JObject [("schema", JObject app)] ∧
         obj_get app "title" = JString "shop".
Proof.
  split; [exact demo_run_posted|]. split; [reflexivity|].
  destruct (request_is_complete _ _ _ _ _ _ demo_run_posted)
    as (app & Hjson & Htitle & _).
  by exists app.
Defined.

Lemma success_final_files_demo :
  (run (demo_host (Archive "PK")) "shop" demo_options demo_files).1 = Ret tt ∧
  (run (demo_host (Archive "PK")) "shop" demo_options demo_files).2.(fs)
    !! "/tmp/flatlogic.zip" = None.
Proof.
  assert (Hret : (run (demo_host (Archive "PK")) "shop" demo_options
                    demo_files).1 = Ret tt) by (vm_compute; reflexivity).
  split; [exact Hret|].
  destruct (success_final_files _ _ _ _ Hret)
    as (app & body & f3 & text & _ & _ & _ & _ & Hframe).
  rewrite (Hframe "/tmp/flatlogic.zip") by discriminate.
  reflexivity.
Defined.
